(** * Follow lifecycle of GoToSocial: [internal/processing/account/follow.go]

    A shallow embedding of [FollowCreate] and [FollowRemove] together with
    the collaborators they call: the repository ([p.state.DB]), the
    relationship resolver ([p.RelationshipGet]), the client-API worker
    queue ([p.state.Workers]) and the ULID generator.  The two processor
    functions are translated statement by statement from the Go source;
    the collaborators live in other packages and are modelled from the
    specification. *)

From Stdlib Require Import String List Bool Arith Lia.
Import ListNotations.
Open Scope string_scope.

(** ** Go errors *)

(** The [error] values the two functions can see.  [Errorf fmt] and
    [ErrorfWrap fmt err] stand for [fmt.Errorf(fmt, ...)]: the format string
    is kept, the error formatted into the message (when there is one) is
    kept, the formatted identifiers are left out. *)
Inductive error : Type :=
| ErrNoEntries                                   (* db.ErrNoEntries *)
| ErrAlreadyExists                               (* db.ErrAlreadyExists *)
| ErrConnection                                  (* any other repository failure *)
| ErrEntropy                                     (* the ULID generator ran dry *)
| Errorf (format : string)
| ErrorfWrap (format : string) (cause : error).

(** [err == db.ErrNoEntries] *)
Definition isErrNoEntries (err : error) : bool :=
  match err with ErrNoEntries => true | _ => false end.

(** [gtserror.WithCode]: an error together with the class the API layer
    reports it under, one constructor per class that follow.go uses. *)
Inductive WithCode : Type :=
| NewErrorInternalError (err : error)
| NewErrorNotFound (err : error)
| NewErrorNotAcceptable (err : error).

(** A Go call returning [(value, error)]. *)
Inductive Result (A : Type) : Type :=
| Val (a : A)
| Err (e : error).
Arguments Val {A} a.
Arguments Err {A} e.

(** ** Data model ([gtsmodel], [apimodel], [messages]) *)

(** The fields of [gtsmodel.Account] that follow.go reads.  [Locked] is a
    [*bool] in the source, hence an option. *)
Record Account : Type := mkAccount {
  acct_ID : string;
  acct_Username : string;
  acct_Domain : string;
  acct_Locked : option bool
}.

Record FollowRequest : Type := mkFollowRequest {
  fr_ID : string;
  fr_AccountID : string;
  fr_TargetAccountID : string;
  fr_ShowReblogs : option bool;
  fr_URI : string;
  fr_Notify : option bool
}.

Record Follow : Type := mkFollow {
  f_ID : string;
  f_AccountID : string;
  f_TargetAccountID : string;
  f_ShowReblogs : option bool;
  f_URI : string;
  f_Notify : option bool
}.

Record Block : Type := mkBlock {
  blk_AccountID : string;
  blk_TargetAccountID : string
}.

(** [apimodel.AccountFollowRequest], the form of a follow call. *)
Record AccountFollowRequest : Type := mkForm {
  form_ID : string;
  form_Reblogs : option bool;
  form_Notify : option bool
}.

(** [apimodel.Relationship], restricted to the flags the specification
    names. *)
Record Relationship : Type := mkRelationship {
  rel_Following : bool;
  rel_Requested : bool;
  rel_Blocking : bool;
  rel_BlockedBy : bool
}.

(** The [GTSModel interface{}] payload of a message: follow.go stores a
    [*gtsmodel.FollowRequest] or a [*gtsmodel.Follow] there. *)
Inductive Model : Type :=
| ModelFollowRequest (fr : FollowRequest)
| ModelFollow (f : Follow).

(** [messages.FromClientAPI] *)
Record FromClientAPI : Type := mkFromClientAPI {
  APObjectType : string;
  APActivityType : string;
  GTSModel : Model;
  OriginAccount : option Account;
  TargetAccount : option Account
}.

(** The activity names of package [ap]. *)
Definition ActivityFollow : string := "Follow".
Definition ActivityCreate : string := "Create".
Definition ActivityUndo : string := "Undo".

(** ** The repository *)

Inductive Table : Type := FollowRequests | Follows.

(** One key per repository entry point that follow.go reaches. *)
Inductive DBOp : Type :=
| OpIsBlocked
| OpGetAccountByID
| OpIsFollowing
| OpIsFollowRequested
| OpPut
| OpAcceptFollowRequest
| OpGetWhere (t : Table)
| OpDeleteByID (t : Table)
| OpGetRelationship.

Definition Table_eqb (a b : Table) : bool :=
  match a, b with
  | FollowRequests, FollowRequests | Follows, Follows => true
  | _, _ => false
  end.

Definition DBOp_eqb (a b : DBOp) : bool :=
  match a, b with
  | OpIsBlocked, OpIsBlocked
  | OpGetAccountByID, OpGetAccountByID
  | OpIsFollowing, OpIsFollowing
  | OpIsFollowRequested, OpIsFollowRequested
  | OpPut, OpPut
  | OpAcceptFollowRequest, OpAcceptFollowRequest
  | OpGetRelationship, OpGetRelationship => true
  | OpGetWhere t, OpGetWhere u => Table_eqb t u
  | OpDeleteByID t, OpDeleteByID u => Table_eqb t u
  | _, _ => false
  end.

(** The tables, and the failures the storage layer is about to answer
    with: [faults] lists, per entry point, the error its next calls return
    (connection loss, cancelled context, a uniqueness violation raised by a
    concurrent writer).  An entry point that is not listed works. *)
Record Store : Type := mkStore {
  accounts : list Account;
  follow_requests : list FollowRequest;
  follows : list Follow;
  blocks : list Block;
  faults : list (DBOp * error)
}.

Fixpoint fault_of (fs : list (DBOp * error)) (op : DBOp) : option error :=
  match fs with
  | [] => None
  | (o, e) :: rest => if DBOp_eqb o op then Some e else fault_of rest op
  end.

Definition fault (db : Store) (op : DBOp) : option error :=
  fault_of (faults db) op.

(** Row predicates: the [account_id] / [target_account_id] columns. *)
Definition fr_between (a b : string) (fr : FollowRequest) : bool :=
  (fr_AccountID fr =? a) && (fr_TargetAccountID fr =? b).

Definition f_between (a b : string) (f : Follow) : bool :=
  (f_AccountID f =? a) && (f_TargetAccountID f =? b).

Definition blk_between (a b : string) (k : Block) : bool :=
  (blk_AccountID k =? a) && (blk_TargetAccountID k =? b).

(** The Follow a FollowRequest is promoted to: same identity, URI and
    flags. *)
Definition follow_of (fr : FollowRequest) : Follow :=
  {| f_ID := fr_ID fr;
     f_AccountID := fr_AccountID fr;
     f_TargetAccountID := fr_TargetAccountID fr;
     f_ShowReblogs := fr_ShowReblogs fr;
     f_URI := fr_URI fr;
     f_Notify := fr_Notify fr |}.

Module DB.

(** Modelled from the spec: [db.DB.IsBlocked] is not part of follow.go.
    "IsBlocked(accountA, accountB, checkBothDirections) -> bool, error.
    Pure read against the repository": a block record from [a] to [b], or,
    when both directions are asked for, from [b] to [a]. *)
Definition IsBlocked (db : Store) (a b : string) (eitherDirection : bool)
  : Result bool :=
  match fault db OpIsBlocked with
  | Some e => Err e
  | None =>
      Val (existsb (blk_between a b) (blocks db)
           || (eitherDirection && existsb (blk_between b a) (blocks db)))
  end.

(** Modelled from the spec: [db.DB.GetAccountByID] is not part of
    follow.go.  "GetAccountByID(id) -> Account | NotFoundError": the stored
    account with that id, or the sentinel [ErrNoEntries]. *)
Definition GetAccountByID (db : Store) (id : string) : Result Account :=
  match fault db OpGetAccountByID with
  | Some e => Err e
  | None =>
      match find (fun a => acct_ID a =? id) (accounts db) with
      | Some a => Val a
      | None => Err ErrNoEntries
      end
  end.

(** Modelled from the spec: [db.DB.IsFollowing] is not part of follow.go.
    "IsFollowing(a, b) -> bool": an accepted follow from [a] to [b] is
    stored. *)
Definition IsFollowing (db : Store) (a b : Account) : Result bool :=
  match fault db OpIsFollowing with
  | Some e => Err e
  | None => Val (existsb (f_between (acct_ID a) (acct_ID b)) (follows db))
  end.

(** Modelled from the spec: [db.DB.IsFollowRequested] is not part of
    follow.go.  "IsFollowRequested(a, b) -> bool": a pending request from
    [a] to [b] is stored. *)
Definition IsFollowRequested (db : Store) (a b : Account) : Result bool :=
  match fault db OpIsFollowRequested with
  | Some e => Err e
  | None =>
      Val (existsb (fr_between (acct_ID a) (acct_ID b)) (follow_requests db))
  end.

(** Modelled from the spec: [db.DB.Put] is not part of follow.go.
    "Put(record)", with "the repository enforcing uniqueness on (origin,
    target) across both FollowRequest and Follow": the request is appended
    unless the pair is taken, in which case nothing is written and the
    call answers [ErrAlreadyExists]. *)
Definition Put (db : Store) (fr : FollowRequest) : option error * Store :=
  match fault db OpPut with
  | Some e => (Some e, db)
  | None =>
      let a := fr_AccountID fr in
      let b := fr_TargetAccountID fr in
      if existsb (fr_between a b) (follow_requests db)
         || existsb (f_between a b) (follows db)
      then (Some ErrAlreadyExists, db)
      else (None,
            {| accounts := accounts db;
               follow_requests := follow_requests db ++ [fr];
               follows := follows db;
               blocks := blocks db;
               faults := faults db |})
  end.

(** Modelled from the spec: [db.DB.AcceptFollowRequest] is not part of
    follow.go.  "atomically accept the FollowRequest (delete the request,
    create the corresponding Follow record with the same identity/URI)",
    "AcceptFollowRequest(requesterID, targetID) -> Follow". *)
Definition AcceptFollowRequest (db : Store) (a b : string)
  : Result Follow * Store :=
  match fault db OpAcceptFollowRequest with
  | Some e => (Err e, db)
  | None =>
      match find (fr_between a b) (follow_requests db) with
      | None => (Err ErrNoEntries, db)
      | Some fr =>
          (Val (follow_of fr),
           {| accounts := accounts db;
              follow_requests :=
                filter (fun r => negb (fr_between a b r)) (follow_requests db);
              follows := follows db ++ [follow_of fr];
              blocks := blocks db;
              faults := faults db |})
      end
  end.

(** Modelled from the spec: [db.DB.GetWhere] is not part of follow.go.
    "GetWhere(predicates, &outRecord)", called by follow.go with the two
    predicates [account_id] and [target_account_id] on a FollowRequest: the
    first matching row, or [ErrNoEntries]. *)
Definition GetWhereFollowRequest (db : Store) (a b : string)
  : Result FollowRequest :=
  match fault db (OpGetWhere FollowRequests) with
  | Some e => Err e
  | None =>
      match find (fr_between a b) (follow_requests db) with
      | Some fr => Val fr
      | None => Err ErrNoEntries
      end
  end.

(** Modelled from the spec: [db.DB.GetWhere], as above, on a Follow. *)
Definition GetWhereFollow (db : Store) (a b : string) : Result Follow :=
  match fault db (OpGetWhere Follows) with
  | Some e => Err e
  | None =>
      match find (f_between a b) (follows db) with
      | Some f => Val f
      | None => Err ErrNoEntries
      end
  end.

(** Modelled from the spec: [db.DB.DeleteByID] is not part of follow.go.
    "DeleteByID(id, recordType)": the rows of that type carrying the id are
    removed; here for a FollowRequest. *)
Definition DeleteFollowRequestByID (db : Store) (id : string)
  : option error * Store :=
  match fault db (OpDeleteByID FollowRequests) with
  | Some e => (Some e, db)
  | None =>
      (None,
       {| accounts := accounts db;
          follow_requests :=
            filter (fun r => negb (fr_ID r =? id)) (follow_requests db);
          follows := follows db;
          blocks := blocks db;
          faults := faults db |})
  end.

(** Modelled from the spec: [db.DB.DeleteByID], as above, for a Follow. *)
Definition DeleteFollowByID (db : Store) (id : string)
  : option error * Store :=
  match fault db (OpDeleteByID Follows) with
  | Some e => (Some e, db)
  | None =>
      (None,
       {| accounts := accounts db;
          follow_requests := follow_requests db;
          follows := filter (fun r => negb (f_ID r =? id)) (follows db);
          blocks := blocks db;
          faults := faults db |})
  end.

(** Modelled from the spec: the relationship query behind
    [p.RelationshipGet] is not part of follow.go.  "a relationship snapshot
    (following: bool, requested: bool, blocked-by-me, blocking-me, etc.,
    derived directly from repository predicate queries, no caching)". *)
Definition GetRelationship (db : Store) (a b : string) : Result Relationship :=
  match fault db OpGetRelationship with
  | Some e => Err e
  | None =>
      Val {| rel_Following := existsb (f_between a b) (follows db);
             rel_Requested := existsb (fr_between a b) (follow_requests db);
             rel_Blocking := existsb (blk_between a b) (blocks db);
             rel_BlockedBy := existsb (blk_between b a) (blocks db) |}
  end.

End DB.

(** ** The processor state and its monad *)

(** What a call of the processor can touch: the repository, the worker
    queue that [EnqueueClientAPI] feeds (oldest message first), and the
    identifiers the ULID generator will hand out next. *)
Record State : Type := mkState {
  DB : Store;
  Workers : list FromClientAPI;
  ULIDs : list string
}.

(** How a call ends: it returns a value, it returns a [gtserror.WithCode],
    or it panics (nil pointer dereference). *)
Inductive Outcome (A : Type) : Type :=
| Ok (a : A)
| Fail (e : WithCode)
| Panic.
Arguments Ok {A} a.
Arguments Fail {A} e.
Arguments Panic {A}.

Definition M (A : Type) : Type := State -> Outcome A * State.

Definition ret {A : Type} (a : A) : M A := fun s => (Ok a, s).

Definition bind {A B : Type} (m : M A) (k : A -> M B) : M B :=
  fun s =>
    match m s with
    | (Ok a, s') => k a s'
    | (Fail e, s') => (Fail e, s')
    | (Panic, s') => (Panic, s')
    end.

(** [return nil, e] *)
Definition throw {A : Type} (e : WithCode) : M A := fun s => (Fail e, s).

(** A nil pointer dereference. *)
Definition panic {A : Type} : M A := fun s => (Panic, s).

Declare Scope go_scope.
Delimit Scope go_scope with go.
Notation "x <- m ;; k" := (bind m (fun x => k))
  (at level 100, m at next level, right associativity) : go_scope.
Open Scope go_scope.

(** A repository read: the state is left alone. *)
Definition query {A : Type} (q : Store -> Result A) : M (Result A) :=
  fun s => (Ok (q (DB s)), s).

(** A repository write: the store is replaced by the one the call
    leaves. *)
Definition exec {A : Type} (c : Store -> A * Store) : M A :=
  fun s =>
    let (r, db') := c (DB s) in
    (Ok r, {| DB := db'; Workers := Workers s; ULIDs := ULIDs s |}).

(** Modelled from the spec: [id.NewRandomULID] is not part of follow.go.
    "Allocate a new unique, sortable id": the next identifier of the
    supply; the generator fails when the supply is empty. *)
Definition NewRandomULID : M (Result string) :=
  fun s =>
    match ULIDs s with
    | [] => (Ok (Err ErrEntropy), s)
    | id :: rest =>
        (Ok (Val id), {| DB := DB s; Workers := Workers s; ULIDs := rest |})
    end.

(** Modelled from the spec: [Workers.EnqueueClientAPI] is not part of
    follow.go.  "Enqueue(DispatchMessage) - non-blocking admission": the
    message joins the queue. *)
Definition EnqueueClientAPI (msg : FromClientAPI) : M unit :=
  fun s =>
    (Ok tt, {| DB := DB s; Workers := Workers s ++ [msg]; ULIDs := ULIDs s |}).

(** Modelled from the spec: [p.RelationshipGet] lives in relationship.go,
    not in follow.go.  "given (requestingAccount, targetAccountID) -> a
    relationship snapshot ... read-only, idempotent, no side effects"; a
    failing repository is an internal error. *)
Definition RelationshipGet (requestingAccount : Account)
    (targetAccountID : string) : M Relationship :=
  r <- query (fun db =>
        DB.GetRelationship db (acct_ID requestingAccount) targetAccountID) ;;
  match r with
  | Err err =>
      throw (NewErrorInternalError
               (ErrorfWrap "error getting relationship: %s" err))
  | Val rel => ret rel
  end.

(** [*p] for a [*bool]. *)
Definition deref (p : option bool) : M bool :=
  match p with
  | Some b => ret b
  | None => panic
  end.

(** [if p != nil { x = p }] *)
Definition override (x p : option bool) : option bool :=
  match p with
  | Some _ => p
  | None => x
  end.

Section Processor.

(** [uris.GenerateURIForFollow(username, id)]: another package; the
    processor only stores what it returns. *)
Variable GenerateURIForFollow : string -> string -> string.

(** ** [FollowCreate] (follow.go, lines 36-122) *)

(** The request built at lines 80-95. *)
Definition newFollowRequest (requestingAccount : Account)
    (form : AccountFollowRequest) (newFollowID : string) : FollowRequest :=
  let showReblogs := true in
  let notify := false in
  {| fr_ID := newFollowID;
     fr_AccountID := acct_ID requestingAccount;
     fr_TargetAccountID := form_ID form;
     fr_ShowReblogs := override (Some showReblogs) (form_Reblogs form);
     fr_URI := GenerateURIForFollow (acct_Username requestingAccount) newFollowID;
     fr_Notify := override (Some notify) (form_Notify form) |}.

Definition FollowCreate (requestingAccount : Account)
    (form : AccountFollowRequest) : M Relationship :=
  (* if there's a block between the accounts we shouldn't create the request *)
  r <- query (fun db =>
        DB.IsBlocked db (acct_ID requestingAccount) (form_ID form) true) ;;
  match r with
  | Err err => throw (NewErrorInternalError err)
  | Val true =>
      throw (NewErrorNotFound (Errorf "block exists between accounts"))
  | Val false =>
  (* make sure the target account actually exists in our db *)
  r <- query (fun db => DB.GetAccountByID db (form_ID form)) ;;
  match r with
  | Err err =>
      if isErrNoEntries err
      then throw (NewErrorNotFound
             (ErrorfWrap "accountfollowcreate: account %s not found in the db: %s" err))
      else throw (NewErrorInternalError err)
  | Val targetAcct =>
  (* check if a follow exists already *)
  r <- query (fun db => DB.IsFollowing db requestingAccount targetAcct) ;;
  match r with
  | Err err =>
      throw (NewErrorInternalError
               (ErrorfWrap "accountfollowcreate: error checking follow in db: %s" err))
  | Val true =>
      (* already follows so just return the relationship *)
      RelationshipGet requestingAccount (form_ID form)
  | Val false =>
  (* check if a follow request exists already *)
  r <- query (fun db => DB.IsFollowRequested db requestingAccount targetAcct) ;;
  match r with
  | Err err =>
      throw (NewErrorInternalError
               (ErrorfWrap "accountfollowcreate: error checking follow request in db: %s" err))
  | Val true =>
      (* already follow requested so just return the relationship *)
      RelationshipGet requestingAccount (form_ID form)
  | Val false =>
  (* check for attempt to follow self *)
  if acct_ID requestingAccount =? acct_ID targetAcct
  then throw (NewErrorNotAcceptable
                (Errorf "accountfollowcreate: account %s cannot follow itself"))
  else
  (* make the follow request *)
  r <- NewRandomULID ;;
  match r with
  | Err err => throw (NewErrorInternalError err)
  | Val newFollowID =>
  let fr := newFollowRequest requestingAccount form newFollowID in
  (* whack it in the database *)
  e <- exec (fun db => DB.Put db fr) ;;
  match e with
  | Some err =>
      throw (NewErrorInternalError
               (ErrorfWrap "accountfollowcreate: error creating follow request in db: %s" err))
  | None =>
  (* if it's a local account that's not locked we can just straight up
     accept the follow request *)
  locked <- deref (acct_Locked targetAcct) ;;
  if negb locked && (acct_Domain targetAcct =? "")
  then
    a <- exec (fun db =>
          DB.AcceptFollowRequest db (acct_ID requestingAccount) (form_ID form)) ;;
    match a with
    | Err err =>
        throw (NewErrorInternalError
                 (ErrorfWrap "accountfollowcreate: error accepting follow request for local unlocked account: %s" err))
    | Val _ =>
        (* return the new relationship *)
        RelationshipGet requestingAccount (form_ID form)
    end
  else
  (* otherwise we leave the follow request as it is and we handle the rest
     of the process asynchronously *)
  _ <- EnqueueClientAPI
         {| APObjectType := ActivityFollow;
            APActivityType := ActivityCreate;
            GTSModel := ModelFollowRequest fr;
            OriginAccount := Some requestingAccount;
            TargetAccount := Some targetAcct |} ;;
  (* return whatever relationship results from this *)
  RelationshipGet requestingAccount (form_ID form)
  end end end end end end.

(** ** [FollowRemove] (follow.go, lines 125-205) *)

(** The transient record an Undo message carries (lines 178-182 and
    193-197): the two account ids and the captured URI, every other field
    at its zero value. *)
Definition undoFollow (requestingAccount : Account)
    (targetAccountID uri : string) : Follow :=
  {| f_ID := "";
     f_AccountID := acct_ID requestingAccount;
     f_TargetAccountID := targetAccountID;
     f_ShowReblogs := None;
     f_URI := uri;
     f_Notify := None |}.

Definition undoMessage (requestingAccount : Account)
    (targetAccountID : string) (targetAcct : option Account) (uri : string)
  : FromClientAPI :=
  {| APObjectType := ActivityFollow;
     APActivityType := ActivityUndo;
     GTSModel := ModelFollow (undoFollow requestingAccount targetAccountID uri);
     OriginAccount := Some requestingAccount;
     TargetAccount := targetAcct |}.

(** [if b { m }] *)
Definition when (b : bool) (m : M unit) : M unit :=
  if b then m else ret tt.

Definition FollowRemove (requestingAccount : Account)
    (targetAccountID : string) : M Relationship :=
  (* if there's a block between the accounts we shouldn't do anything *)
  r <- query (fun db =>
        DB.IsBlocked db (acct_ID requestingAccount) targetAccountID true) ;;
  match r with
  | Err err => throw (NewErrorInternalError err)
  | Val true =>
      throw (NewErrorNotFound
               (Errorf "AccountFollowRemove: block exists between accounts"))
  | Val false =>
  (* make sure the target account actually exists in our db *)
  r <- query (fun db => DB.GetAccountByID db targetAccountID) ;;
  targetAcct <-
    match r with
    | Err err =>
        if isErrNoEntries err
        then throw (NewErrorNotFound
               (ErrorfWrap "AccountFollowRemove: account %s not found in the db: %s" err))
        else ret None      (* no return here: execution goes on, targetAcct is nil *)
    | Val a => ret (Some a)
    end ;;
  (* check if a follow request exists, and remove it if it does (storing
     the URI for later) *)
  r <- query (fun db =>
        DB.GetWhereFollowRequest db (acct_ID requestingAccount) targetAccountID) ;;
  frState <-
    match r with
    | Val fr =>                                     (* err == nil *)
        let frURI := fr_URI fr in
        e <- exec (fun db => DB.DeleteFollowRequestByID db (fr_ID fr)) ;;
        match e with
        | Some err =>
            throw (NewErrorInternalError
                     (ErrorfWrap "AccountFollowRemove: error removing follow request from db: %s" err))
        | None => ret (true, frURI)
        end
    | Err _ => ret (false, "")
    end ;;
  let '(frChanged, frURI) := frState in
  (* now do the same thing for any existing follow *)
  r <- query (fun db =>
        DB.GetWhereFollow db (acct_ID requestingAccount) targetAccountID) ;;
  fState <-
    match r with
    | Val f =>                                      (* err == nil *)
        let fURI := f_URI f in
        e <- exec (fun db => DB.DeleteFollowByID db (f_ID f)) ;;
        match e with
        | Some err =>
            throw (NewErrorInternalError
                     (ErrorfWrap "AccountFollowRemove: error removing follow from db: %s" err))
        | None => ret (true, fURI)
        end
    | Err _ => ret (false, "")
    end ;;
  let '(fChanged, fURI) := fState in
  (* follow request status changed so send the UNDO activity to the channel
     for async processing *)
  _ <- when frChanged
         (EnqueueClientAPI
            (undoMessage requestingAccount targetAccountID targetAcct frURI)) ;;
  (* follow status changed so send the UNDO activity to the channel for
     async processing *)
  _ <- when fChanged
         (EnqueueClientAPI
            (undoMessage requestingAccount targetAccountID targetAcct fURI)) ;;
  (* return whatever relationship results from all this *)
  RelationshipGet requestingAccount targetAccountID
  end.

End Processor.

Arguments FollowCreate GenerateURIForFollow requestingAccount form _ : simpl never.
Arguments FollowRemove requestingAccount targetAccountID _ : simpl never.

(** ** Reading the repository *)

(** The repository answers every call: no failure is pending. *)
Definition operational (db : Store) : Prop := faults db = [].

(** A block record exists between [a] and [b], in either direction. *)
Definition blockBetween (db : Store) (a b : string) : bool :=
  existsb (blk_between a b) (blocks db) || existsb (blk_between b a) (blocks db).

(** The stored account with identifier [id]. *)
Definition lookupAccount (db : Store) (id : string) : option Account :=
  find (fun a => acct_ID a =? id) (accounts db).

(** The FollowRequest and Follow rows for the ordered pair [(a, b)]. *)
Definition requestsBetween (db : Store) (a b : string) : list FollowRequest :=
  filter (fr_between a b) (follow_requests db).

Definition followsBetween (db : Store) (a b : string) : list Follow :=
  filter (f_between a b) (follows db).

(** The snapshot the resolver computes on a store. *)
Definition snapshot (db : Store) (a b : string) : Relationship :=
  {| rel_Following := existsb (f_between a b) (follows db);
     rel_Requested := existsb (fr_between a b) (follow_requests db);
     rel_Blocking := existsb (blk_between a b) (blocks db);
     rel_BlockedBy := existsb (blk_between b a) (blocks db) |}.

(** The store after [fr] was inserted, and after it was then accepted. *)
Definition withRequest (db : Store) (fr : FollowRequest) : Store :=
  {| accounts := accounts db;
     follow_requests := follow_requests db ++ [fr];
     follows := follows db;
     blocks := blocks db;
     faults := faults db |}.

Definition withAccepted (db : Store) (a b : string) (fr : FollowRequest) : Store :=
  {| accounts := accounts db;
     follow_requests :=
       filter (fun r => negb (fr_between a b r)) (follow_requests db);
     follows := follows db ++ [follow_of fr];
     blocks := blocks db;
     faults := faults db |}.

(** The Create message of line 112. *)
Definition createMessage (requestingAccount targetAcct : Account)
    (fr : FollowRequest) : FromClientAPI :=
  {| APObjectType := ActivityFollow;
     APActivityType := ActivityCreate;
     GTSModel := ModelFollowRequest fr;
     OriginAccount := Some requestingAccount;
     TargetAccount := Some targetAcct |}.

(** [Some x] as a one-element list, [None] as the empty one. *)
Definition found {A : Type} (r : Result A) : list A :=
  match r with
  | Val a => [a]
  | Err _ => []
  end.

(** ** More ways to describe a store *)

(** The store without the FollowRequest rows, or the Follow rows, that
    carry [id]: what a successful [DeleteByID] leaves. *)
Definition withoutRequest (db : Store) (id : string) : Store :=
  {| accounts := accounts db;
     follow_requests := filter (fun r => negb (fr_ID r =? id)) (follow_requests db);
     follows := follows db;
     blocks := blocks db;
     faults := faults db |}.

Definition withoutFollow (db : Store) (id : string) : Store :=
  {| accounts := accounts db;
     follow_requests := follow_requests db;
     follows := filter (fun r => negb (f_ID r =? id)) (follows db);
     blocks := blocks db;
     faults := faults db |}.

(** The store a remove leaves when every call answers: the first request
    of the pair is deleted by id, then the first follow of the pair. *)
Definition afterRemove (db : Store) (a b : string) : Store :=
  let db1 :=
    match find (fr_between a b) (follow_requests db) with
    | Some fr => withoutRequest db (fr_ID fr)
    | None => db
    end in
  match find (f_between a b) (follows db) with
  | Some f => withoutFollow db1 (f_ID f)
  | None => db1
  end.

(** [Some x] as a one-element list. *)
Definition option_list {A : Type} (o : option A) : list A :=
  match o with
  | Some a => [a]
  | None => []
  end.

(** The Undo messages of a remove on [db], request first. *)
Definition undoMessages (requestingAccount : Account) (targetAccountID : string)
    (targetAcct : option Account) (db : Store) : list FromClientAPI :=
  (map (fun fr => undoMessage requestingAccount targetAccountID targetAcct (fr_URI fr))
     (option_list (find (fr_between (acct_ID requestingAccount) targetAccountID)
                     (follow_requests db)))
   ++
   map (fun f => undoMessage requestingAccount targetAccountID targetAcct (f_URI f))
     (option_list (find (f_between (acct_ID requestingAccount) targetAccountID)
                     (follows db))))%list.

(** A supplied option, or the default. *)
Definition optionOr (o : option bool) (default : bool) : bool :=
  match o with
  | Some b => b
  | None => default
  end.

(** ** Sample accounts and states *)

Module Sample.

Definition uri (username id : string) : string :=
  "https://example.org/users/" ++ username ++ "/follow/" ++ id.

(** Three local accounts, one of them locked, and two remote ones. *)
Definition alice : Account := mkAccount "01ALICE" "alice" "" (Some false).
Definition bob : Account := mkAccount "01BOB" "bob" "" (Some false).
Definition lou : Account := mkAccount "01LOU" "lou" "" (Some true).
Definition carol : Account := mkAccount "01CAROL" "carol" "remote.example" (Some false).
(** A stored account whose [Locked] column was never filled in. *)
Definition nil_locked : Account := mkAccount "01NIL" "nil" "remote.example" None.

Definition everyone : list Account := [alice; bob; lou; carol; nil_locked].

Definition to (target : Account) : AccountFollowRequest :=
  mkForm (acct_ID target) None None.

Definition request (id : string) (a b : Account) : FollowRequest :=
  mkFollowRequest id (acct_ID a) (acct_ID b) (Some true)
    (uri (acct_Username a) id) (Some false).

Definition state (frs : list FollowRequest) (fs : list Follow)
    (bs : list Block) (flt : list (DBOp * error)) : State :=
  {| DB := {| accounts := everyone; follow_requests := frs; follows := fs;
              blocks := bs; faults := flt |};
     Workers := [];
     ULIDs := ["01FOLLOW1"; "01FOLLOW2"] |}.

(** Nothing between anyone. *)
Definition fresh : State := state [] [] [] [].

(** alice has blocked herself. *)
Definition self_blocked : State :=
  state [] [] [mkBlock "01ALICE" "01ALICE"] [].

(** A follow from alice to alice is on record. *)
Definition self_following : State :=
  state [] [follow_of (request "01OLD" alice alice)] [] [].

(** bob has blocked alice. *)
Definition bob_blocks_alice : State :=
  state [] [] [mkBlock "01BOB" "01ALICE"] [].

(** alice has a pending request to an account that is no longer stored. *)
Definition dangling : State :=
  state [mkFollowRequest "01OLD" "01ALICE" "01GONE" (Some true)
           (uri "alice" "01OLD") (Some false)] [] [] [].

(** A concurrent writer wins the race: the insert hits the uniqueness
    constraint. *)
Definition lost_race : State := state [] [] [] [(OpPut, ErrAlreadyExists)].

(** alice asked to follow bob while bob was locked; bob has since unlocked
    the account and the request is still pending. *)
Definition pending_bob : State := state [request "01OLD" alice bob] [] [] [].

(** alice already follows carol. *)
Definition following_carol : State :=
  state [] [follow_of (request "01OLD" alice carol)] [] [].

(** alice has a pending request to carol, and the lookup of follow requests
    is failing. *)
Definition request_lookup_down : State :=
  state [request "01OLD" alice carol] [] []
    [(OpGetWhere FollowRequests, ErrConnection)].

(** alice follows carol, and the lookup of follows is failing. *)
Definition follow_lookup_down : State :=
  state [] [follow_of (request "01OLD" alice carol)] []
    [(OpGetWhere Follows, ErrConnection)].

(** Both a request and a follow from alice to carol are on record. *)
Definition both_carol : State :=
  state [request "01REQ" alice carol]
        [follow_of (request "01FOL" alice carol)] [] [].

(** The generator has no identifier left. *)
Definition dry : State :=
  {| DB := DB fresh; Workers := []; ULIDs := [] |}.

(** The promotion of a request is failing. *)
Definition accept_down : State :=
  state [] [] [] [(OpAcceptFollowRequest, ErrConnection)].

(** Both a request and a follow from alice to carol are on record, and
    follows cannot be deleted. *)
Definition follow_delete_down : State :=
  state [request "01REQ" alice carol]
        [follow_of (request "01FOL" alice carol)] []
        [(OpDeleteByID Follows, ErrConnection)].

(** A request from alice to carol is on record, and requests cannot be
    deleted. *)
Definition request_delete_down : State :=
  state [request "01REQ" alice carol]
        [follow_of (request "01FOL" alice carol)] []
        [(OpDeleteByID FollowRequests, ErrConnection)].

End Sample.

(** ** Running the monad *)

Lemma run_query {A B : Type} (q : Store -> Result A) (k : Result A -> M B) s :
  bind (query q) k s = k (q (DB s)) s.
Proof. reflexivity. Qed.

Lemma run_exec {A B : Type} (c : Store -> A * Store) (k : A -> M B) s :
  bind (exec c) k s =
  k (fst (c (DB s)))
    {| DB := snd (c (DB s)); Workers := Workers s; ULIDs := ULIDs s |}.
Proof. unfold bind, exec. destruct (c (DB s)); reflexivity. Qed.

Lemma run_ret {A B : Type} (a : A) (k : A -> M B) s :
  bind (ret a) k s = k a s.
Proof. reflexivity. Qed.

Lemma run_enqueue {B : Type} msg (k : unit -> M B) s :
  bind (EnqueueClientAPI msg) k s =
  k tt {| DB := DB s; Workers := Workers s ++ [msg]; ULIDs := ULIDs s |}.
Proof. reflexivity. Qed.

Lemma run_ulid {B : Type} (k : Result string -> M B) s id rest :
  ULIDs s = id :: rest ->
  bind NewRandomULID k s =
  k (Val id) {| DB := DB s; Workers := Workers s; ULIDs := rest |}.
Proof. intros H. unfold bind, NewRandomULID. rewrite H. reflexivity. Qed.

Lemma run_assoc {A B C : Type} (m : M A) (f : A -> M B) (g : B -> M C) s :
  bind (bind m f) g s = bind m (fun x => bind (f x) g) s.
Proof. unfold bind. destruct (m s) as [[a| |] s']; reflexivity. Qed.

(** ** Facts about the repository model *)

Lemma operational_fault db op : operational db -> fault db op = None.
Proof. unfold operational, fault. intros ->. reflexivity. Qed.

Create HintDb repo.
#[local] Hint Resolve operational_fault : repo.

Lemma IsBlocked_answer db a b :
  fault db OpIsBlocked = None ->
  DB.IsBlocked db a b true = Val (blockBetween db a b).
Proof. intros H. unfold DB.IsBlocked, blockBetween. rewrite H. reflexivity. Qed.

Lemma GetAccountByID_answer db id :
  fault db OpGetAccountByID = None ->
  DB.GetAccountByID db id =
  match lookupAccount db id with Some a => Val a | None => Err ErrNoEntries end.
Proof. intros H. unfold DB.GetAccountByID, lookupAccount. rewrite H. reflexivity. Qed.

Lemma lookupAccount_ID db id a : lookupAccount db id = Some a -> acct_ID a = id.
Proof.
  unfold lookupAccount. intros H. apply find_some in H.
  destruct H as [_ H]. now apply String.eqb_eq.
Qed.

Lemma GetRelationship_answer db a b :
  fault db OpGetRelationship = None ->
  DB.GetRelationship db a b = Val (snapshot db a b).
Proof. intros H. unfold DB.GetRelationship, snapshot. rewrite H. reflexivity. Qed.

Lemma RelationshipGet_answer A b s :
  fault (DB s) OpGetRelationship = None ->
  RelationshipGet A b s = (Ok (snapshot (DB s) (acct_ID A) b), s).
Proof.
  intros H. unfold RelationshipGet. rewrite run_query.
  rewrite GetRelationship_answer by assumption. reflexivity.
Qed.

(** The two guards both operations start with, on a repository that
    answers: no block, target account stored. *)
Ltac pass_guards Hop Hblk Hacct :=
  rewrite run_query, IsBlocked_answer, Hblk by auto with repo;
  rewrite run_query, GetAccountByID_answer, Hacct by auto with repo.

(** The two already-exists lookups of [FollowCreate], answered by [Hf] and
    [Hfr]. *)
Ltac pass_lookups Hop HB Hf Hfr :=
  rewrite run_query; unfold DB.IsFollowing;
  rewrite operational_fault, HB, Hf by assumption;
  rewrite run_query; unfold DB.IsFollowRequested;
  rewrite operational_fault, HB, Hfr by assumption.

Lemma existsb_filter_nil {A : Type} (p : A -> bool) l :
  existsb p l = false <-> filter p l = [].
Proof.
  induction l as [|x l IH]; simpl; [tauto|].
  destruct (p x); simpl; [split; discriminate | exact IH].
Qed.

Lemma existsb_find_none {A : Type} (p : A -> bool) l :
  existsb p l = false -> find p l = None.
Proof.
  induction l as [|x l IH]; simpl; [reflexivity|].
  destruct (p x); simpl; [discriminate | exact IH].
Qed.

Lemma existsb_filter_length {A : Type} (p : A -> bool) l :
  existsb p l = true -> 1 <= length (filter p l).
Proof.
  induction l as [|x l IH]; simpl; [discriminate|].
  destruct (p x); simpl; [lia | exact IH].
Qed.

Lemma filter_negb_nil {A : Type} (p : A -> bool) l :
  filter p (filter (fun x => negb (p x)) l) = [].
Proof.
  induction l as [|x l IH]; simpl; [reflexivity|].
  destruct (p x) eqn:E; simpl; [exact IH | rewrite E; exact IH].
Qed.

(** ** The guards at the head of both operations *)

(** C7.  When a block exists between the requester and the target, in
    either direction, and the block query answers, [FollowCreate] and
    [FollowRemove] both fail with a NotFound error, and the state they
    leave is the state they found: no row written or deleted, no message
    enqueued. *)
Theorem blocked_pair_not_found uri A form s :
  fault (DB s) OpIsBlocked = None ->
  blockBetween (DB s) (acct_ID A) (form_ID form) = true ->
  (exists e, FollowCreate uri A form s = (Fail (NewErrorNotFound e), s)) /\
  (exists e, FollowRemove A (form_ID form) s = (Fail (NewErrorNotFound e), s)).
Proof.
  intros Hf Hb. split; eexists.
  - unfold FollowCreate. rewrite run_query, IsBlocked_answer, Hb by assumption.
    reflexivity.
  - unfold FollowRemove. rewrite run_query, IsBlocked_answer, Hb by assumption.
    reflexivity.
Qed.

Lemma blocked_pair_not_found_witness :
  (exists e, FollowCreate Sample.uri Sample.alice (Sample.to Sample.bob)
               Sample.bob_blocks_alice
             = (Fail (NewErrorNotFound e), Sample.bob_blocks_alice)) /\
  (exists e, FollowRemove Sample.alice "01BOB" Sample.bob_blocks_alice
             = (Fail (NewErrorNotFound e), Sample.bob_blocks_alice)).
Proof.
  apply (blocked_pair_not_found Sample.uri Sample.alice (Sample.to Sample.bob)
           Sample.bob_blocks_alice); reflexivity.
Defined.

(** C1, as stated, fails: alice is stored, the repository works, and a
    block from alice to alice is on record; [FollowCreate(alice, alice)]
    stops at the block guard with NotFound and never reaches the self-follow
    check. *)
Lemma self_follow_behind_block_guard :
  FollowCreate Sample.uri Sample.alice (Sample.to Sample.alice) Sample.self_blocked
  = (Fail (NewErrorNotFound (Errorf "block exists between accounts")),
     Sample.self_blocked)
  /\ ~ (exists e s',
          FollowCreate Sample.uri Sample.alice (Sample.to Sample.alice)
            Sample.self_blocked
          = (Fail (NewErrorNotAcceptable e), s')).
Proof.
  split; [reflexivity|]. intros (e & s' & H). vm_compute in H. discriminate H.
Qed.

(** The existing-follow guard comes before the self-follow check as well:
    with a follow from alice to alice on record the call returns the
    snapshot. *)
Example self_follow_behind_existing_follow :
  FollowCreate Sample.uri Sample.alice (Sample.to Sample.alice) Sample.self_following
  = (Ok {| rel_Following := true; rel_Requested := false;
           rel_Blocking := false; rel_BlockedBy := false |},
     Sample.self_following).
Proof. reflexivity. Qed.

(** C1, amended.  When the requester is stored under its id, no block and
    no Follow or FollowRequest from the requester to itself is on record,
    and the repository answers, [FollowCreate(A, A)] fails with
    NotAcceptable and leaves the state as it found it. *)
Theorem self_follow_not_acceptable uri A form s A' :
  form_ID form = acct_ID A ->
  operational (DB s) ->
  lookupAccount (DB s) (acct_ID A) = Some A' ->
  blockBetween (DB s) (acct_ID A) (acct_ID A) = false ->
  followsBetween (DB s) (acct_ID A) (acct_ID A) = [] ->
  requestsBetween (DB s) (acct_ID A) (acct_ID A) = [] ->
  exists e, FollowCreate uri A form s = (Fail (NewErrorNotAcceptable e), s).
Proof.
  intros Hid Hop Hacct Hblk Hf Hfr.
  pose proof (lookupAccount_ID _ _ _ Hacct) as HA'.
  apply existsb_filter_nil in Hf. apply existsb_filter_nil in Hfr.
  eexists. unfold FollowCreate. rewrite Hid.
  pass_guards Hop Hblk Hacct. pass_lookups Hop HA' Hf Hfr.
  rewrite String.eqb_refl. reflexivity.
Qed.

Lemma self_follow_not_acceptable_witness :
  exists e,
    FollowCreate Sample.uri Sample.alice (Sample.to Sample.alice) Sample.fresh
    = (Fail (NewErrorNotAcceptable e), Sample.fresh).
Proof.
  apply (self_follow_not_acceptable Sample.uri Sample.alice
           (Sample.to Sample.alice) Sample.fresh Sample.alice); reflexivity.
Defined.

(** C2, as stated, fails: alice has a pending request to an account that
    is not stored any more.  The lookup answers [ErrNoEntries] and
    [FollowRemove] returns NotFound at once: the request is still there, no
    snapshot is returned. *)
Lemma remove_stops_at_missing_target :
  FollowRemove Sample.alice "01GONE" Sample.dangling
  = (Fail (NewErrorNotFound
             (ErrorfWrap "AccountFollowRemove: account %s not found in the db: %s"
                ErrNoEntries)),
     Sample.dangling)
  /\ requestsBetween (DB Sample.dangling) "01ALICE" "01GONE" <> [].
Proof. split; [reflexivity | discriminate]. Qed.

(** C2, amended.  In [FollowRemove], when no block stands between the
    accounts and the target lookup fails with [ErrNoEntries], the operation
    aborts with NotFound: nothing is deleted, nothing is enqueued. *)
Theorem remove_missing_target_not_found A targetAccountID s :
  DB.IsBlocked (DB s) (acct_ID A) targetAccountID true = Val false ->
  DB.GetAccountByID (DB s) targetAccountID = Err ErrNoEntries ->
  exists e, FollowRemove A targetAccountID s = (Fail (NewErrorNotFound e), s).
Proof.
  intros Hblk Hacct. eexists. unfold FollowRemove.
  rewrite run_query, Hblk, run_query, Hacct. reflexivity.
Qed.

Lemma remove_missing_target_not_found_witness :
  exists e,
    FollowRemove Sample.alice "01GONE" Sample.dangling
    = (Fail (NewErrorNotFound e), Sample.dangling).
Proof.
  apply (remove_missing_target_not_found Sample.alice "01GONE" Sample.dangling);
    reflexivity.
Defined.

(** ** The create path past its guards *)

Lemma Put_failure db fr err db' : DB.Put db fr = (Some err, db') -> db' = db.
Proof.
  unfold DB.Put. destruct (fault db OpPut); [now inversion 1|].
  destruct (_ || _); now inversion 1.
Qed.

Lemma find_app_last {A : Type} (p : A -> bool) l x :
  find p l = None -> p x = true -> find p (l ++ [x]) = Some x.
Proof.
  intros Hl Hx. induction l as [|y l IH]; simpl in *.
  - now rewrite Hx.
  - destruct (p y); [discriminate | now apply IH].
Qed.

Lemma fr_between_new uri A form id :
  fr_between (acct_ID A) (form_ID form) (newFollowRequest uri A form id) = true.
Proof. unfold fr_between; simpl. now rewrite !String.eqb_refl. Qed.

Lemma Put_fresh db fr :
  fault db OpPut = None ->
  existsb (f_between (fr_AccountID fr) (fr_TargetAccountID fr)) (follows db)
  = false ->
  existsb (fr_between (fr_AccountID fr) (fr_TargetAccountID fr))
    (follow_requests db) = false ->
  DB.Put db fr = (None, withRequest db fr).
Proof. intros H Hf Hfr. unfold DB.Put. rewrite H, Hf, Hfr. reflexivity. Qed.

Lemma AcceptFollowRequest_found db a b fr :
  fault db OpAcceptFollowRequest = None ->
  find (fr_between a b) (follow_requests db) = Some fr ->
  DB.AcceptFollowRequest db a b = (Val (follow_of fr), withAccepted db a b fr).
Proof. intros H Hfr. unfold DB.AcceptFollowRequest. rewrite H, Hfr. reflexivity. Qed.

(** With an existing Follow or FollowRequest the call is a read. *)
Lemma create_existing uri A form s B :
  operational (DB s) ->
  blockBetween (DB s) (acct_ID A) (form_ID form) = false ->
  lookupAccount (DB s) (form_ID form) = Some B ->
  existsb (f_between (acct_ID A) (form_ID form)) (follows (DB s))
  || existsb (fr_between (acct_ID A) (form_ID form)) (follow_requests (DB s))
  = true ->
  FollowCreate uri A form s
  = (Ok (snapshot (DB s) (acct_ID A) (form_ID form)), s).
Proof.
  intros Hop Hblk Hacct Hex.
  pose proof (lookupAccount_ID _ _ _ Hacct) as HB.
  unfold FollowCreate. pass_guards Hop Hblk Hacct.
  rewrite run_query. unfold DB.IsFollowing.
  rewrite operational_fault, HB by assumption.
  destruct (existsb (f_between _ _) (follows (DB s))).
  - apply RelationshipGet_answer. auto with repo.
  - rewrite run_query. unfold DB.IsFollowRequested.
    rewrite operational_fault, HB by assumption.
    simpl in Hex. rewrite Hex.
    apply RelationshipGet_answer. auto with repo.
Qed.

(** With nothing between the two accounts the call inserts a request, and
    then promotes it, announces it, or crashes on the [Locked] pointer. *)
Lemma create_fresh uri A form s B id rest :
  operational (DB s) ->
  blockBetween (DB s) (acct_ID A) (form_ID form) = false ->
  lookupAccount (DB s) (form_ID form) = Some B ->
  followsBetween (DB s) (acct_ID A) (form_ID form) = [] ->
  requestsBetween (DB s) (acct_ID A) (form_ID form) = [] ->
  acct_ID A <> form_ID form ->
  ULIDs s = id :: rest ->
  let fr := newFollowRequest uri A form id in
  let db1 := withRequest (DB s) fr in
  let db2 := withAccepted db1 (acct_ID A) (form_ID form) fr in
  FollowCreate uri A form s =
  match acct_Locked B with
  | None => (Panic, {| DB := db1; Workers := Workers s; ULIDs := rest |})
  | Some locked =>
      if negb locked && (acct_Domain B =? "")
      then (Ok (snapshot db2 (acct_ID A) (form_ID form)),
            {| DB := db2; Workers := Workers s; ULIDs := rest |})
      else (Ok (snapshot db1 (acct_ID A) (form_ID form)),
            {| DB := db1; Workers := Workers s ++ [createMessage A B fr];
               ULIDs := rest |})
  end.
Proof.
  intros Hop Hblk Hacct Hf Hfr Hneq Hid fr db1 db2.
  pose proof (lookupAccount_ID _ _ _ Hacct) as HB.
  apply existsb_filter_nil in Hf. apply existsb_filter_nil in Hfr.
  unfold FollowCreate. pass_guards Hop Hblk Hacct. pass_lookups Hop HB Hf Hfr.
  apply String.eqb_neq in Hneq. rewrite Hneq.
  rewrite (run_ulid _ _ _ _ Hid). fold fr.
  rewrite run_exec. cbn [DB Workers ULIDs].
  rewrite (Put_fresh (DB s) fr)
    by (try apply operational_fault; assumption).
  cbn [fst snd]. fold db1.
  destruct (acct_Locked B) as [locked|]; [|reflexivity].
  unfold deref. rewrite run_ret.
  destruct (negb locked && (acct_Domain B =? "")).
  - rewrite run_exec. cbn [DB Workers ULIDs].
    rewrite (AcceptFollowRequest_found db1 (acct_ID A) (form_ID form) fr).
    + cbn [fst snd]. fold db2.
      rewrite RelationshipGet_answer; [reflexivity|].
      now apply operational_fault.
    + now apply operational_fault.
    + apply find_app_last; [now apply existsb_find_none | apply fr_between_new].
  - rewrite run_enqueue.
    rewrite RelationshipGet_answer; [reflexivity|].
    now apply operational_fault.
Qed.

Lemma f_between_follow_of a b fr : f_between a b (follow_of fr) = fr_between a b fr.
Proof. reflexivity. Qed.

Lemma requestsBetween_withRequest db a b fr :
  fr_between a b fr = true ->
  requestsBetween (withRequest db fr) a b = (requestsBetween db a b ++ [fr])%list.
Proof.
  intros H. unfold requestsBetween; simpl. rewrite filter_app; simpl.
  now rewrite H.
Qed.

Lemma requestsBetween_withAccepted db a b fr :
  requestsBetween (withAccepted db a b fr) a b = [].
Proof. unfold requestsBetween; simpl. apply filter_negb_nil. Qed.

Lemma followsBetween_withAccepted db a b fr :
  fr_between a b fr = true ->
  followsBetween (withAccepted db a b fr) a b
  = (followsBetween db a b ++ [follow_of fr])%list.
Proof.
  intros H. unfold followsBetween; simpl. rewrite filter_app; simpl.
  now rewrite f_between_follow_of, H.
Qed.

Lemma existsb_filter_cons {A : Type} (p : A -> bool) l :
  filter p l <> [] -> existsb p l = true.
Proof.
  intros H. destruct (existsb p l) eqn:E; [reflexivity|].
  now apply existsb_filter_nil in E.
Qed.

(** C3, as stated, fails: a concurrent writer made the insert hit the
    uniqueness constraint.  [FollowCreate(alice, carol)] answers with an
    Internal error that wraps [ErrAlreadyExists], not with a snapshot. *)
Lemma duplicate_insert_is_internal :
  FollowCreate Sample.uri Sample.alice (Sample.to Sample.carol) Sample.lost_race
  = (Fail (NewErrorInternalError
             (ErrorfWrap "accountfollowcreate: error creating follow request in db: %s"
                ErrAlreadyExists)),
     {| DB := DB Sample.lost_race; Workers := []; ULIDs := ["01FOLLOW2"] |})
  /\ ~ (exists rel s',
          FollowCreate Sample.uri Sample.alice (Sample.to Sample.carol)
            Sample.lost_race = (Ok rel, s')).
Proof.
  split; [reflexivity|]. intros (rel & s' & H). vm_compute in H. discriminate H.
Qed.

(** C3, amended.  In [FollowCreate], if persisting the new FollowRequest
    fails, for whatever reason and so also on a uniqueness violation
    ([ErrAlreadyExists]), the operation returns an Internal error wrapping
    that failure; the repository and the queue are left as they were. *)
Theorem put_failure_is_internal uri A form s B id rest err db' :
  DB.IsBlocked (DB s) (acct_ID A) (form_ID form) true = Val false ->
  DB.GetAccountByID (DB s) (form_ID form) = Val B ->
  DB.IsFollowing (DB s) A B = Val false ->
  DB.IsFollowRequested (DB s) A B = Val false ->
  acct_ID A <> acct_ID B ->
  ULIDs s = id :: rest ->
  DB.Put (DB s) (newFollowRequest uri A form id) = (Some err, db') ->
  FollowCreate uri A form s
  = (Fail (NewErrorInternalError
             (ErrorfWrap "accountfollowcreate: error creating follow request in db: %s"
                err)),
     {| DB := DB s; Workers := Workers s; ULIDs := rest |}).
Proof.
  intros Hblk Hacct Hf Hfr Hneq Hid Hput.
  pose proof (Put_failure _ _ _ _ Hput) as ->.
  unfold FollowCreate.
  rewrite run_query, Hblk, run_query, Hacct, run_query, Hf, run_query, Hfr.
  apply String.eqb_neq in Hneq. rewrite Hneq.
  rewrite (run_ulid _ _ _ _ Hid), run_exec. cbn [DB Workers ULIDs].
  rewrite Hput. reflexivity.
Qed.

Lemma put_failure_is_internal_witness :
  FollowCreate Sample.uri Sample.alice (Sample.to Sample.carol) Sample.lost_race
  = (Fail (NewErrorInternalError
             (ErrorfWrap "accountfollowcreate: error creating follow request in db: %s"
                ErrAlreadyExists)),
     {| DB := DB Sample.lost_race; Workers := Workers Sample.lost_race;
        ULIDs := ["01FOLLOW2"] |}).
Proof.
  apply (put_failure_is_internal Sample.uri Sample.alice (Sample.to Sample.carol)
           Sample.lost_race Sample.carol "01FOLLOW1" ["01FOLLOW2"]
           ErrAlreadyExists (DB Sample.lost_race));
    try reflexivity. discriminate.
Defined.

(** C10.  Past its guards [FollowCreate] needs the target's [Locked]
    pointer: when the stored target has a nil [Locked] field, the call
    inserts the FollowRequest and then panics on the dereference of line
    103, so the request stays in the repository, nothing is enqueued and no
    snapshot is returned. *)
Theorem nil_locked_panics uri A form s B id rest :
  operational (DB s) ->
  blockBetween (DB s) (acct_ID A) (form_ID form) = false ->
  lookupAccount (DB s) (form_ID form) = Some B ->
  acct_Locked B = None ->
  followsBetween (DB s) (acct_ID A) (form_ID form) = [] ->
  requestsBetween (DB s) (acct_ID A) (form_ID form) = [] ->
  acct_ID A <> form_ID form ->
  ULIDs s = id :: rest ->
  FollowCreate uri A form s
  = (Panic,
     {| DB := withRequest (DB s) (newFollowRequest uri A form id);
        Workers := Workers s;
        ULIDs := rest |})
  /\ In (newFollowRequest uri A form id)
        (follow_requests (withRequest (DB s) (newFollowRequest uri A form id))).
Proof.
  intros Hop Hblk Hacct Hnil Hf Hfr Hneq Hid. split.
  - rewrite (create_fresh uri A form s B id rest) by assumption.
    now rewrite Hnil.
  - simpl. apply in_or_app. right. now left.
Qed.

Lemma nil_locked_panics_witness :
  FollowCreate Sample.uri Sample.alice (Sample.to Sample.nil_locked) Sample.fresh
  = (Panic,
     {| DB := withRequest (DB Sample.fresh)
                (Sample.request "01FOLLOW1" Sample.alice Sample.nil_locked);
        Workers := [];
        ULIDs := ["01FOLLOW2"] |})
  /\ In (Sample.request "01FOLLOW1" Sample.alice Sample.nil_locked)
        (follow_requests
           (withRequest (DB Sample.fresh)
              (Sample.request "01FOLLOW1" Sample.alice Sample.nil_locked))).
Proof.
  apply (nil_locked_panics Sample.uri Sample.alice (Sample.to Sample.nil_locked)
           Sample.fresh Sample.nil_locked "01FOLLOW1" ["01FOLLOW2"]);
    try reflexivity. discriminate.
Defined.

(** ** What a create leaves behind *)

(** C5, as stated, fails: bob is local and unlocked, alice and bob are
    distinct and unblocked, and a request from alice to bob is still
    pending.  [FollowCreate(alice, bob)] stops at the existing-request
    guard: the request stays, no Follow is written, the snapshot says
    requested and not following. *)
Lemma pending_request_is_not_promoted :
  FollowCreate Sample.uri Sample.alice (Sample.to Sample.bob) Sample.pending_bob
  = (Ok {| rel_Following := false; rel_Requested := true;
           rel_Blocking := false; rel_BlockedBy := false |},
     Sample.pending_bob)
  /\ length (requestsBetween (DB Sample.pending_bob) "01ALICE" "01BOB") = 1
  /\ length (followsBetween (DB Sample.pending_bob) "01ALICE" "01BOB") = 0.
Proof. repeat split. Qed.

(** C5, amended.  For every distinct, unblocked pair (A, B) where B is
    local and not locked and no FollowRequest from A to B is pending
    beforehand, [FollowCreate(A, B)] ends with zero FollowRequest records
    and exactly one Follow record for (A, B), enqueues no message, and
    returns a snapshot with following = true.  (The repository answers, B
    is stored, an identifier is available, and at most one Follow for the
    pair exists beforehand.) *)
Theorem local_unlocked_auto_accept uri A form s B :
  operational (DB s) ->
  ULIDs s <> [] ->
  acct_ID A <> form_ID form ->
  blockBetween (DB s) (acct_ID A) (form_ID form) = false ->
  lookupAccount (DB s) (form_ID form) = Some B ->
  acct_Locked B = Some false ->
  acct_Domain B = "" ->
  requestsBetween (DB s) (acct_ID A) (form_ID form) = [] ->
  length (followsBetween (DB s) (acct_ID A) (form_ID form)) <= 1 ->
  exists rel s',
    FollowCreate uri A form s = (Ok rel, s') /\
    requestsBetween (DB s') (acct_ID A) (form_ID form) = [] /\
    length (followsBetween (DB s') (acct_ID A) (form_ID form)) = 1 /\
    Workers s' = Workers s /\
    rel_Following rel = true.
Proof.
  intros Hop Hid Hneq Hblk Hacct Hlock Hdom Hfr Hone.
  destruct (followsBetween (DB s) (acct_ID A) (form_ID form)) as [|f fs] eqn:Hf.
  - destruct (ULIDs s) as [|id rest] eqn:Hu; [contradiction|].
    pose proof (create_fresh uri A form s B id rest Hop Hblk Hacct Hf Hfr Hneq Hu)
      as Hrun.
    cbv zeta in Hrun. rewrite Hlock, Hdom in Hrun. simpl in Hrun.
    do 2 eexists. split; [exact Hrun|]. cbn [DB Workers].
    pose proof (fr_between_new uri A form id) as Hnew.
    repeat split.
    + apply requestsBetween_withAccepted.
    + rewrite followsBetween_withAccepted by assumption.
      unfold followsBetween in *. simpl follows. rewrite Hf. reflexivity.
    + simpl. rewrite existsb_app. simpl.
      rewrite f_between_follow_of, Hnew. apply orb_true_iff. right. reflexivity.
  - assert (Hex : existsb (f_between (acct_ID A) (form_ID form)) (follows (DB s))
                  = true).
    { apply existsb_filter_cons. unfold followsBetween in Hf. now rewrite Hf. }
    exists (snapshot (DB s) (acct_ID A) (form_ID form)), s.
    split; [apply (create_existing uri A form s B); try assumption;
            now rewrite Hex|].
    repeat split; try assumption.
    + rewrite Hf. simpl in *. lia.
Qed.

Lemma local_unlocked_auto_accept_witness :
  exists rel s',
    FollowCreate Sample.uri Sample.alice (Sample.to Sample.bob) Sample.fresh
    = (Ok rel, s') /\
    requestsBetween (DB s') "01ALICE" "01BOB" = [] /\
    length (followsBetween (DB s') "01ALICE" "01BOB") = 1 /\
    Workers s' = [] /\
    rel_Following rel = true.
Proof.
  apply (local_unlocked_auto_accept Sample.uri Sample.alice (Sample.to Sample.bob)
           Sample.fresh Sample.bob); try reflexivity; try discriminate.
  simpl. lia.
Defined.

(** C6, as stated, fails: carol is remote, alice and carol are distinct and
    unblocked, and alice already follows carol.  [FollowCreate(alice,
    carol)] stops at the existing-follow guard: no request is written, no
    message is enqueued, and the snapshot says following. *)
Lemma existing_follow_is_not_requested_again :
  FollowCreate Sample.uri Sample.alice (Sample.to Sample.carol)
    Sample.following_carol
  = (Ok {| rel_Following := true; rel_Requested := false;
           rel_Blocking := false; rel_BlockedBy := false |},
     Sample.following_carol)
  /\ requestsBetween (DB Sample.following_carol) "01ALICE" "01CAROL" = []
  /\ length (followsBetween (DB Sample.following_carol) "01ALICE" "01CAROL") = 1
  /\ Workers Sample.following_carol = [].
Proof. repeat split. Qed.

(** C6, amended.  For every distinct, unblocked pair (A, B) with no Follow
    and no FollowRequest from A to B beforehand, where B is remote or is
    local and locked, [FollowCreate(A, B)] ends with exactly one
    FollowRequest and zero Follow records for (A, B), enqueues exactly one
    message, of activity type Create and object type Follow, whose payload
    is the persisted FollowRequest, and returns a snapshot with requested =
    true and following = false.  (The repository answers, B is stored with
    its [Locked] field set, an identifier is available.) *)
Theorem remote_or_locked_manual_accept uri A form s B locked :
  operational (DB s) ->
  ULIDs s <> [] ->
  acct_ID A <> form_ID form ->
  blockBetween (DB s) (acct_ID A) (form_ID form) = false ->
  lookupAccount (DB s) (form_ID form) = Some B ->
  acct_Locked B = Some locked ->
  acct_Domain B <> "" \/ locked = true ->
  followsBetween (DB s) (acct_ID A) (form_ID form) = [] ->
  requestsBetween (DB s) (acct_ID A) (form_ID form) = [] ->
  exists rel s' fr msg,
    FollowCreate uri A form s = (Ok rel, s') /\
    requestsBetween (DB s') (acct_ID A) (form_ID form) = [fr] /\
    followsBetween (DB s') (acct_ID A) (form_ID form) = [] /\
    Workers s' = (Workers s ++ [msg])%list /\
    APActivityType msg = ActivityCreate /\
    APObjectType msg = ActivityFollow /\
    GTSModel msg = ModelFollowRequest fr /\
    rel_Requested rel = true /\
    rel_Following rel = false.
Proof.
  intros Hop Hid Hneq Hblk Hacct Hlock Hmanual Hf Hfr.
  destruct (ULIDs s) as [|id rest] eqn:Hu; [contradiction|].
  pose proof (create_fresh uri A form s B id rest Hop Hblk Hacct Hf Hfr Hneq Hu)
    as Hrun.
  cbv zeta in Hrun. rewrite Hlock in Hrun.
  assert (Hno : negb locked && (acct_Domain B =? "") = false).
  { destruct Hmanual as [Hd | ->]; [|reflexivity].
    apply String.eqb_neq in Hd. rewrite Hd. apply andb_false_r. }
  rewrite Hno in Hrun.
  pose proof (fr_between_new uri A form id) as Hnew.
  eexists _, _, (newFollowRequest uri A form id), _.
  split; [exact Hrun|]. cbn [DB Workers].
  repeat split.
  - rewrite requestsBetween_withRequest by assumption. now rewrite Hfr.
  - exact Hf.
  - simpl. rewrite existsb_app. simpl. rewrite Hnew.
    apply orb_true_iff. right. reflexivity.
  - simpl. now apply existsb_filter_nil.
Qed.

Lemma remote_or_locked_manual_accept_witness :
  exists rel s' fr msg,
    FollowCreate Sample.uri Sample.alice (Sample.to Sample.carol) Sample.fresh
    = (Ok rel, s') /\
    requestsBetween (DB s') "01ALICE" "01CAROL" = [fr] /\
    followsBetween (DB s') "01ALICE" "01CAROL" = [] /\
    Workers s' = (Workers Sample.fresh ++ [msg])%list /\
    APActivityType msg = ActivityCreate /\
    APObjectType msg = ActivityFollow /\
    GTSModel msg = ModelFollowRequest fr /\
    rel_Requested rel = true /\
    rel_Following rel = false.
Proof.
  apply (remote_or_locked_manual_accept Sample.uri Sample.alice
           (Sample.to Sample.carol) Sample.fresh Sample.carol false);
    try reflexivity; try discriminate.
  left. discriminate.
Defined.

(** C4.  For distinct, unblocked accounts A and B (the repository answers,
    B is stored with its [Locked] field set, an identifier is available,
    and at most one Follow or FollowRequest for the pair exists
    beforehand), two calls of [FollowCreate(A, B)] in a row leave exactly
    one Follow or FollowRequest for (A, B): the second call returns the
    snapshot the first one returned and leaves the whole state - tables
    and queue - as the first call left it. *)
Theorem create_twice_is_create_once uri A form s B locked :
  operational (DB s) ->
  ULIDs s <> [] ->
  acct_ID A <> form_ID form ->
  blockBetween (DB s) (acct_ID A) (form_ID form) = false ->
  lookupAccount (DB s) (form_ID form) = Some B ->
  acct_Locked B = Some locked ->
  length (requestsBetween (DB s) (acct_ID A) (form_ID form))
  + length (followsBetween (DB s) (acct_ID A) (form_ID form)) <= 1 ->
  exists rel s1,
    FollowCreate uri A form s = (Ok rel, s1) /\
    FollowCreate uri A form s1 = (Ok rel, s1) /\
    length (requestsBetween (DB s1) (acct_ID A) (form_ID form))
    + length (followsBetween (DB s1) (acct_ID A) (form_ID form)) = 1.
Proof.
  intros Hop Hid Hneq Hblk Hacct Hlock Hone.
  unfold requestsBetween, followsBetween in *.
  destruct (existsb (f_between (acct_ID A) (form_ID form)) (follows (DB s))
            || existsb (fr_between (acct_ID A) (form_ID form))
                 (follow_requests (DB s))) eqn:Hex.
  - (* something is on record: both calls only read *)
    pose proof (create_existing uri A form s B Hop Hblk Hacct Hex) as Hrun.
    exists (snapshot (DB s) (acct_ID A) (form_ID form)), s.
    repeat split; try exact Hrun.
    apply orb_true_iff in Hex.
    destruct Hex as [H | H]; apply existsb_filter_length in H; lia.
  - (* nothing on record: the first call writes, the second one reads *)
    apply orb_false_iff in Hex. destruct Hex as [Hf Hfr].
    apply existsb_filter_nil in Hf, Hfr.
    destruct (ULIDs s) as [|id rest] eqn:Hu; [contradiction|].
    pose proof (create_fresh uri A form s B id rest Hop Hblk Hacct Hf Hfr Hneq Hu)
      as Hrun.
    cbv zeta in Hrun. rewrite Hlock in Hrun.
    pose proof (fr_between_new uri A form id) as Hnew.
    destruct (negb locked && (acct_Domain B =? "")).
    + do 2 eexists. split; [exact Hrun|]. split.
      * match goal with
        | |- FollowCreate _ _ _ ?st = _ =>
            apply (create_existing uri A form st B); try assumption
        end.
        cbn [DB]. simpl follows. rewrite existsb_app. simpl.
        rewrite f_between_follow_of, Hnew. now rewrite !orb_true_r.
      * cbn [DB].
        fold (requestsBetween
                (withAccepted (withRequest (DB s) (newFollowRequest uri A form id))
                   (acct_ID A) (form_ID form) (newFollowRequest uri A form id))
                (acct_ID A) (form_ID form)).
        rewrite requestsBetween_withAccepted.
        simpl follows. rewrite filter_app, Hf. simpl.
        now rewrite f_between_follow_of, Hnew.
    + do 2 eexists. split; [exact Hrun|]. split.
      * match goal with
        | |- FollowCreate _ _ _ ?st = _ =>
            apply (create_existing uri A form st B); try assumption
        end.
        cbn [DB]. simpl follow_requests. rewrite existsb_app. simpl.
        rewrite Hnew. now rewrite !orb_true_r.
      * cbn [DB]. simpl follows. simpl follow_requests.
        rewrite filter_app, Hf, Hfr. simpl. now rewrite Hnew.
Qed.

Lemma create_twice_is_create_once_witness :
  exists rel s1,
    FollowCreate Sample.uri Sample.alice (Sample.to Sample.lou) Sample.fresh
    = (Ok rel, s1) /\
    FollowCreate Sample.uri Sample.alice (Sample.to Sample.lou) s1 = (Ok rel, s1) /\
    length (requestsBetween (DB s1) "01ALICE" "01LOU")
    + length (followsBetween (DB s1) "01ALICE" "01LOU") = 1.
Proof.
  apply (create_twice_is_create_once Sample.uri Sample.alice (Sample.to Sample.lou)
           Sample.fresh Sample.lou true); try reflexivity; try discriminate.
  simpl. lia.
Defined.

(** ** What a remove leaves behind *)

Lemma RelationshipGet_state A b s : snd (RelationshipGet A b s) = s.
Proof.
  unfold RelationshipGet. rewrite run_query.
  destruct (DB.GetRelationship _ _ _); reflexivity.
Qed.

Lemma DeleteFollowRequestByID_ok db id :
  fault db (OpDeleteByID FollowRequests) = None ->
  DB.DeleteFollowRequestByID db id =
  (None,
   {| accounts := accounts db;
      follow_requests := filter (fun r => negb (fr_ID r =? id)) (follow_requests db);
      follows := follows db;
      blocks := blocks db;
      faults := faults db |}).
Proof. intros H. unfold DB.DeleteFollowRequestByID. now rewrite H. Qed.

Lemma DeleteFollowByID_ok db id :
  fault db (OpDeleteByID Follows) = None ->
  DB.DeleteFollowByID db id =
  (None,
   {| accounts := accounts db;
      follow_requests := follow_requests db;
      follows := filter (fun r => negb (f_ID r =? id)) (follows db);
      blocks := blocks db;
      faults := faults db |}).
Proof. intros H. unfold DB.DeleteFollowByID. now rewrite H. Qed.

Lemma not_in_without_request fr l :
  ~ In fr (filter (fun r => negb (fr_ID r =? fr_ID fr)) l).
Proof.
  intros H. apply filter_In in H. destruct H as [_ H].
  now rewrite String.eqb_refl in H.
Qed.

Lemma not_in_without_follow f l :
  ~ In f (filter (fun r => negb (f_ID r =? f_ID f)) l).
Proof.
  intros H. apply filter_In in H. destruct H as [_ H].
  now rewrite String.eqb_refl in H.
Qed.

(** C8.  In [FollowRemove], past the block guard and the target lookup and
    with both deletions going through, the request lookup and the follow
    lookup are acted on independently of each other: every row a lookup
    found is deleted, and the queue grows by one Undo/Follow message per
    deleted row, carrying the requester id, the target id and that row's
    URI - the request's message first, then the follow's; two messages
    when both lookups found a row, none when neither did. *)
Theorem remove_enqueues_one_undo_per_deleted_row A targetAccountID s :
  DB.IsBlocked (DB s) (acct_ID A) targetAccountID true = Val false ->
  DB.GetAccountByID (DB s) targetAccountID <> Err ErrNoEntries ->
  fault (DB s) (OpDeleteByID FollowRequests) = None ->
  fault (DB s) (OpDeleteByID Follows) = None ->
  let targetAcct :=
    match DB.GetAccountByID (DB s) targetAccountID with
    | Val a => Some a
    | Err _ => None
    end in
  let frs := found (DB.GetWhereFollowRequest (DB s) (acct_ID A) targetAccountID) in
  let fs := found (DB.GetWhereFollow (DB s) (acct_ID A) targetAccountID) in
  let undo uri :=
    {| APObjectType := ActivityFollow;
       APActivityType := ActivityUndo;
       GTSModel := ModelFollow
                     {| f_ID := ""; f_AccountID := acct_ID A;
                        f_TargetAccountID := targetAccountID;
                        f_ShowReblogs := None; f_URI := uri; f_Notify := None |};
       OriginAccount := Some A;
       TargetAccount := targetAcct |} in
  let s' := snd (FollowRemove A targetAccountID s) in
  Workers s'
  = (Workers s ++ map (fun fr => undo (fr_URI fr)) frs
               ++ map (fun f => undo (f_URI f)) fs)%list /\
  (forall fr, In fr frs -> ~ In fr (follow_requests (DB s'))) /\
  (forall f, In f fs -> ~ In f (follows (DB s'))) /\
  (frs = [] -> follow_requests (DB s') = follow_requests (DB s)) /\
  (fs = [] -> follows (DB s') = follows (DB s)).
Proof.
  intros Hblk Hacct Hdfr Hdf targetAcct frs fs undo s'.
  assert (Hrun : s' =
    {| DB :=
         {| accounts := accounts (DB s);
            follow_requests :=
              match frs with
              | fr :: _ =>
                  filter (fun r => negb (fr_ID r =? fr_ID fr)) (follow_requests (DB s))
              | [] => follow_requests (DB s)
              end;
            follows :=
              match fs with
              | f :: _ => filter (fun r => negb (f_ID r =? f_ID f)) (follows (DB s))
              | [] => follows (DB s)
              end;
            blocks := blocks (DB s);
            faults := faults (DB s) |};
       Workers := (Workers s ++ map (fun fr => undo (fr_URI fr)) frs
                             ++ map (fun f => undo (f_URI f)) fs)%list;
       ULIDs := ULIDs s |}).
  { subst s' frs fs undo targetAcct.
    remember (DB.GetWhereFollowRequest (DB s) (acct_ID A) targetAccountID) as rFR.
    remember (DB.GetWhereFollow (DB s) (acct_ID A) targetAccountID) as rF.
    unfold FollowRemove.
    rewrite run_query, Hblk, run_query.
    assert (Htarget :
      bind
        match DB.GetAccountByID (DB s) targetAccountID with
        | Val a => ret (Some a)
        | Err err =>
            if isErrNoEntries err
            then throw (NewErrorNotFound
                   (ErrorfWrap "AccountFollowRemove: account %s not found in the db: %s" err))
            else ret None
        end
      = bind (ret match DB.GetAccountByID (DB s) targetAccountID with
                  | Val a => Some a
                  | Err _ => None
                  end) (B := Relationship)).
    { destruct (DB.GetAccountByID (DB s) targetAccountID) as [a|[]];
        try reflexivity. now contradiction Hacct. }
    rewrite Htarget, run_ret, run_query, <- HeqrFR. clear Htarget.
    destruct rFR as [fr|e1].
    - rewrite run_assoc, run_exec, DeleteFollowRequestByID_ok by assumption.
      cbn [fst snd]. rewrite run_ret, run_query. cbn [DB Workers ULIDs].
      change (DB.GetWhereFollow _ (acct_ID A) targetAccountID)
        with (DB.GetWhereFollow (DB s) (acct_ID A) targetAccountID).
      rewrite <- HeqrF.
      destruct rF as [f|e2].
      + rewrite run_assoc, run_exec. cbn [DB Workers ULIDs].
        rewrite DeleteFollowByID_ok by exact Hdf.
        cbn [fst snd]. rewrite run_ret. unfold when.
        rewrite !run_enqueue, RelationshipGet_state. simpl.
        now rewrite <- app_assoc.
      + rewrite run_ret. unfold when.
        rewrite run_enqueue, run_ret, RelationshipGet_state. simpl.
        reflexivity.
    - rewrite run_ret, run_query, <- HeqrF.
      destruct rF as [f|e2].
      + rewrite run_assoc, run_exec, DeleteFollowByID_ok by assumption.
        cbn [fst snd]. rewrite run_ret. unfold when.
        rewrite run_ret, run_enqueue, RelationshipGet_state. simpl.
        reflexivity.
      + rewrite run_ret. unfold when.
        rewrite !run_ret, RelationshipGet_state.
        destruct s as [[] ? ?]; simpl. now rewrite app_nil_r. }
  rewrite Hrun. cbn [DB Workers follow_requests follows].
  split; [reflexivity|]. subst frs fs. repeat split.
  - intros fr Hin.
    destruct (DB.GetWhereFollowRequest (DB s) (acct_ID A) targetAccountID);
      simpl in Hin |- *; [|contradiction].
    destruct Hin as [<-|[]]. apply not_in_without_request.
  - intros f Hin.
    destruct (DB.GetWhereFollow (DB s) (acct_ID A) targetAccountID);
      simpl in Hin |- *; [|contradiction].
    destruct Hin as [<-|[]]. apply not_in_without_follow.
  - now intros ->.
  - now intros ->.
Qed.

Lemma remove_enqueues_one_undo_per_deleted_row_witness :
  let s' := snd (FollowRemove Sample.alice "01CAROL" Sample.both_carol) in
  let frs := [Sample.request "01REQ" Sample.alice Sample.carol] in
  let fs := [follow_of (Sample.request "01FOL" Sample.alice Sample.carol)] in
  Workers s'
  = [undoMessage Sample.alice "01CAROL" (Some Sample.carol)
       (Sample.uri "alice" "01REQ");
     undoMessage Sample.alice "01CAROL" (Some Sample.carol)
       (Sample.uri "alice" "01FOL")] /\
  (forall fr, In fr frs -> ~ In fr (follow_requests (DB s'))) /\
  (forall f, In f fs -> ~ In f (follows (DB s'))) /\
  (frs = [] -> follow_requests (DB s') = follow_requests (DB Sample.both_carol)) /\
  (fs = [] -> follows (DB s') = follows (DB Sample.both_carol)).
Proof.
  apply (remove_enqueues_one_undo_per_deleted_row Sample.alice "01CAROL"
           Sample.both_carol); try reflexivity. discriminate.
Defined.

(** Removing when nothing is on record: a read, with an all-false
    snapshot and an untouched queue. *)
Example remove_nothing :
  FollowRemove Sample.alice "01CAROL" Sample.fresh
  = (Ok {| rel_Following := false; rel_Requested := false;
           rel_Blocking := false; rel_BlockedBy := false |},
     Sample.fresh).
Proof. reflexivity. Qed.

(** ** Repository errors in the remove path *)

(** C9: the code at the failing inputs.  alice has a pending request to
    carol (first state) or follows carol (second state), and the lookup of
    that row fails with a connection error, which is not [ErrNoEntries].
    [FollowRemove] does not report the error: it returns a snapshot, the
    row is still stored and no Undo message is enqueued.  The same happens
    to a failing target lookup (third state): the call goes on with a nil
    target and deletes and announces as usual. *)
Theorem remove_swallows_lookup_errors :
  FollowRemove Sample.alice "01CAROL" Sample.request_lookup_down
  = (Ok {| rel_Following := false; rel_Requested := true;
           rel_Blocking := false; rel_BlockedBy := false |},
     Sample.request_lookup_down)
  /\
  FollowRemove Sample.alice "01CAROL" Sample.follow_lookup_down
  = (Ok {| rel_Following := true; rel_Requested := false;
           rel_Blocking := false; rel_BlockedBy := false |},
     Sample.follow_lookup_down)
  /\
  FollowRemove Sample.alice "01CAROL"
    (Sample.state [Sample.request "01OLD" Sample.alice Sample.carol] [] []
       [(OpGetAccountByID, ErrConnection)])
  = (Ok {| rel_Following := false; rel_Requested := false;
           rel_Blocking := false; rel_BlockedBy := false |},
     {| DB := DB (Sample.state [] [] [] [(OpGetAccountByID, ErrConnection)]);
        Workers := [undoMessage Sample.alice "01CAROL" None
                      (Sample.uri "alice" "01OLD")];
        ULIDs := ["01FOLLOW1"; "01FOLLOW2"] |}).
Proof. repeat split. Qed.

(** In general: whatever error the two row lookups answer with, the call
    reads it as "no such row" - it returns the snapshot and leaves the
    state alone. *)
Lemma remove_reads_lookup_errors_as_absent A targetAccountID s B e1 e2 :
  DB.IsBlocked (DB s) (acct_ID A) targetAccountID true = Val false ->
  DB.GetAccountByID (DB s) targetAccountID = Val B ->
  DB.GetWhereFollowRequest (DB s) (acct_ID A) targetAccountID = Err e1 ->
  DB.GetWhereFollow (DB s) (acct_ID A) targetAccountID = Err e2 ->
  fault (DB s) OpGetRelationship = None ->
  FollowRemove A targetAccountID s
  = (Ok (snapshot (DB s) (acct_ID A) targetAccountID), s).
Proof.
  intros Hblk Hacct Hfr Hf Hrel. unfold FollowRemove.
  rewrite run_query, Hblk, run_query, Hacct, run_ret.
  rewrite run_query, Hfr, run_ret, run_query, Hf, run_ret.
  unfold when. rewrite !run_ret.
  now apply RelationshipGet_answer.
Qed.

(** The sibling path: in [FollowCreate] the same failures are reported. *)
Example create_reports_lookup_errors :
  FollowCreate Sample.uri Sample.alice (Sample.to Sample.carol)
    (Sample.state [] [] [] [(OpGetAccountByID, ErrConnection)])
  = (Fail (NewErrorInternalError ErrConnection),
     Sample.state [] [] [] [(OpGetAccountByID, ErrConnection)])
  /\
  FollowCreate Sample.uri Sample.alice (Sample.to Sample.carol)
    (Sample.state [] [] [] [(OpIsFollowRequested, ErrConnection)])
  = (Fail (NewErrorInternalError
             (ErrorfWrap "accountfollowcreate: error checking follow request in db: %s"
                ErrConnection)),
     Sample.state [] [] [] [(OpIsFollowRequested, ErrConnection)]).
Proof. repeat split. Qed.

(** ** Exploring every path of a call *)

(** Case analysis on the innermost scrutinee of a hypothesis. *)
Ltac break_in H :=
  match type of H with
  | context [match ?x with _ => _ end] =>
      lazymatch x with
      | context [match _ with _ => _ end] => fail
      | _ => destruct x eqn:?
      end
  end.

Ltac open_run H :=
  unfold FollowCreate, FollowRemove, RelationshipGet, when, deref,
    NewRandomULID, EnqueueClientAPI, bind, query, exec, throw, ret, panic in H;
  cbn beta iota in H.

(** Every path of the call recorded in [H], the impossible ones closed. *)
Ltac explore H :=
  open_run H;
  repeat (break_in H; try discriminate H; cbn [DB Workers ULIDs] in H);
  cbn [DB Workers ULIDs] in *.

Lemma Put_inv db fr r db' :
  DB.Put db fr = (r, db') ->
  (r = None /\ db' = withRequest db fr) \/ (exists e, r = Some e /\ db' = db).
Proof.
  unfold DB.Put. destruct (fault db OpPut).
  - inversion 1. right. eauto.
  - destruct (_ || _); inversion 1; [right; eauto | left; auto].
Qed.

Lemma AcceptFollowRequest_inv db a b r db' :
  DB.AcceptFollowRequest db a b = (r, db') ->
  (exists e, r = Err e /\ db' = db) \/
  (exists fr, find (fr_between a b) (follow_requests db) = Some fr /\
              r = Val (follow_of fr) /\ db' = withAccepted db a b fr).
Proof.
  unfold DB.AcceptFollowRequest. destruct (fault db OpAcceptFollowRequest).
  - inversion 1. left. eauto.
  - destruct (find _ _) eqn:E; inversion 1; [right | left]; eauto.
Qed.

Lemma DeleteFollowRequestByID_inv db id r db' :
  DB.DeleteFollowRequestByID db id = (r, db') ->
  (r = None /\ db' = withoutRequest db id) \/ (exists e, r = Some e /\ db' = db).
Proof.
  unfold DB.DeleteFollowRequestByID.
  destruct (fault db (OpDeleteByID FollowRequests)); inversion 1;
    [right; eauto | left; auto].
Qed.

Lemma DeleteFollowByID_inv db id r db' :
  DB.DeleteFollowByID db id = (r, db') ->
  (r = None /\ db' = withoutFollow db id) \/ (exists e, r = Some e /\ db' = db).
Proof.
  unfold DB.DeleteFollowByID.
  destruct (fault db (OpDeleteByID Follows)); inversion 1;
    [right; eauto | left; auto].
Qed.

(** Rewrites the store equations that [explore] leaves behind. *)
Ltac settle_stores :=
  repeat match goal with
  | H : DB.Put _ _ = _ |- _ =>
      apply Put_inv in H; destruct H as [[? ?] | (? & ? & ?)]
  | H : DB.AcceptFollowRequest _ _ _ = _ |- _ =>
      apply AcceptFollowRequest_inv in H;
      destruct H as [(? & ? & ?) | (? & ? & ? & ?)]
  | H : DB.DeleteFollowRequestByID _ _ = _ |- _ =>
      apply DeleteFollowRequestByID_inv in H;
      destruct H as [[? ?] | (? & ? & ?)]
  | H : DB.DeleteFollowByID _ _ = _ |- _ =>
      apply DeleteFollowByID_inv in H;
      destruct H as [[? ?] | (? & ? & ?)]
  end;
  subst; try discriminate.

(** ** The snapshot that is returned *)

(** X1.  Whenever [FollowCreate] returns a relationship, it is the one the
    resolver answers on the state the call leaves: every successful return
    of lines 58, 66, 108 and 121 goes through [RelationshipGet] after the
    last write. *)
Theorem create_returns_final_snapshot uri A form s rel s' :
  FollowCreate uri A form s = (Ok rel, s') ->
  DB.GetRelationship (DB s') (acct_ID A) (form_ID form) = Val rel.
Proof.
  intros H. explore H.
  all: injection H as <- <-; cbn [DB]; assumption.
Qed.

Lemma create_returns_final_snapshot_witness :
  DB.GetRelationship
    (withRequest (DB Sample.fresh)
       (Sample.request "01FOLLOW1" Sample.alice Sample.carol))
    "01ALICE" "01CAROL"
  = Val {| rel_Following := false; rel_Requested := true;
           rel_Blocking := false; rel_BlockedBy := false |}.
Proof.
  apply (create_returns_final_snapshot Sample.uri Sample.alice
           (Sample.to Sample.carol) Sample.fresh _
           {| DB := withRequest (DB Sample.fresh)
                      (Sample.request "01FOLLOW1" Sample.alice Sample.carol);
              Workers := [createMessage Sample.alice Sample.carol
                            (Sample.request "01FOLLOW1" Sample.alice Sample.carol)];
              ULIDs := ["01FOLLOW2"] |}).
  reflexivity.
Defined.

(** X2.  Whenever [FollowRemove] returns a relationship, it is the one the
    resolver answers on the state the call leaves, after the deletions
    (line 204). *)
Theorem remove_returns_final_snapshot A targetAccountID s rel s' :
  FollowRemove A targetAccountID s = (Ok rel, s') ->
  DB.GetRelationship (DB s') (acct_ID A) targetAccountID = Val rel.
Proof.
  intros H. explore H.
  all: injection H as <- <-; cbn [DB]; assumption.
Qed.

Lemma remove_returns_final_snapshot_witness :
  DB.GetRelationship (DB Sample.fresh) "01ALICE" "01CAROL"
  = Val {| rel_Following := false; rel_Requested := false;
           rel_Blocking := false; rel_BlockedBy := false |}.
Proof.
  apply (remove_returns_final_snapshot Sample.alice "01CAROL" Sample.both_carol _
           {| DB := DB Sample.fresh;
              Workers := undoMessages Sample.alice "01CAROL" (Some Sample.carol)
                           (DB Sample.both_carol);
              ULIDs := ULIDs Sample.both_carol |}).
  reflexivity.
Defined.

(** ** What a create can and cannot change *)

Lemma newFollowRequest_fields uri A form id :
  newFollowRequest uri A form id =
  {| fr_ID := id;
     fr_AccountID := acct_ID A;
     fr_TargetAccountID := form_ID form;
     fr_ShowReblogs := Some (optionOr (form_Reblogs form) true);
     fr_URI := uri (acct_Username A) id;
     fr_Notify := Some (optionOr (form_Notify form) false) |}.
Proof.
  unfold newFollowRequest.
  destruct (form_Reblogs form), (form_Notify form); reflexivity.
Qed.

(** X3.  [FollowCreate] leaves the queue as it was or adds exactly one
    message to its end.  That message is a Create of a Follow from the
    requester to the stored target, and its payload is the FollowRequest
    the call has just written: new identifier, URI generated from the
    requester's username and that identifier, show-reblogs and notify as
    supplied in the form, true and false when the form leaves them out. *)
Theorem create_enqueues_at_most_one_create uri A form s :
  let s' := snd (FollowCreate uri A form s) in
  Workers s' = Workers s \/
  exists id B,
    hd_error (ULIDs s) = Some id /\
    DB.GetAccountByID (DB s) (form_ID form) = Val B /\
    let fr :=
      {| fr_ID := id;
         fr_AccountID := acct_ID A;
         fr_TargetAccountID := form_ID form;
         fr_ShowReblogs := Some (optionOr (form_Reblogs form) true);
         fr_URI := uri (acct_Username A) id;
         fr_Notify := Some (optionOr (form_Notify form) false) |} in
    Workers s'
    = (Workers s ++ [{| APObjectType := ActivityFollow;
                        APActivityType := ActivityCreate;
                        GTSModel := ModelFollowRequest fr;
                        OriginAccount := Some A;
                        TargetAccount := Some B |}])%list /\
    In fr (follow_requests (DB s')).
Proof.
  destruct (FollowCreate uri A form s) as [out s'] eqn:H. cbn [snd].
  explore H; settle_stores.
  all: injection H as <- <-; cbn [Workers DB]; try (left; reflexivity).
  all: right; do 2 eexists; rewrite <- newFollowRequest_fields.
  all: repeat split; try eassumption; try reflexivity.
  all: try (match goal with H : ULIDs _ = _ :: _ |- _ => rewrite H end; reflexivity).
  all: simpl; apply in_or_app; right; now left.
Qed.

Lemma filter_filter_implied {A : Type} (p q : A -> bool) l :
  (forall x, p x = true -> q x = true) ->
  filter p (filter q l) = filter p l.
Proof.
  intros Hpq. induction l as [|x l IH]; simpl; [reflexivity|].
  destruct (q x) eqn:Eq; simpl.
  - now rewrite IH.
  - destruct (p x) eqn:Ep; [|exact IH].
    apply Hpq in Ep. congruence.
Qed.

Lemma fr_between_other a b a' b' fr :
  (a', b') <> (a, b) -> fr_between a b fr = true -> fr_between a' b' fr = false.
Proof.
  unfold fr_between. intros Hneq H. apply andb_true_iff in H.
  destruct H as [Ha Hb]. apply String.eqb_eq in Ha, Hb. subst.
  apply andb_false_iff.
  destruct (fr_AccountID fr =? a') eqn:Ea; [|now left]. right.
  apply String.eqb_eq in Ea. apply String.eqb_neq. intros <-.
  now subst.
Qed.

Lemma requestsBetween_withRequest_other db a b fr :
  fr_between a b fr = false ->
  requestsBetween (withRequest db fr) a b = requestsBetween db a b.
Proof.
  intros H. unfold requestsBetween; simpl. rewrite filter_app; simpl.
  now rewrite H, app_nil_r.
Qed.

Lemma requestsBetween_withAccepted_other db a0 b0 a b fr :
  (a, b) <> (a0, b0) ->
  requestsBetween (withAccepted db a0 b0 fr) a b = requestsBetween db a b.
Proof.
  intros Hneq. unfold requestsBetween; simpl.
  apply filter_filter_implied. intros x Hx.
  destruct (fr_between a0 b0 x) eqn:E; [|reflexivity].
  now rewrite (fr_between_other _ _ _ _ x Hneq E) in Hx.
Qed.

Lemma followsBetween_withAccepted_other db a0 b0 a b fr :
  fr_between a b fr = false ->
  followsBetween (withAccepted db a0 b0 fr) a b = followsBetween db a b.
Proof.
  intros H. unfold followsBetween; simpl. rewrite filter_app; simpl.
  now rewrite f_between_follow_of, H, app_nil_r.
Qed.

(** X4.  [FollowCreate(A, B)] acts on the pair (A, B) only: the
    FollowRequest rows and the Follow rows of every other ordered pair of
    accounts are the same before and after the call, whatever the call
    does and however it ends. *)
Theorem create_leaves_other_pairs_alone uri A form s a b :
  (a, b) <> (acct_ID A, form_ID form) ->
  let s' := snd (FollowCreate uri A form s) in
  requestsBetween (DB s') a b = requestsBetween (DB s) a b /\
  followsBetween (DB s') a b = followsBetween (DB s) a b.
Proof.
  intros Hneq.
  destruct (FollowCreate uri A form s) as [out s'] eqn:H. cbn [snd].
  pose proof (fun id => fr_between_other _ _ _ _ (newFollowRequest uri A form id)
                          Hneq (fr_between_new uri A form id)) as Hnew.
  explore H; settle_stores.
  all: injection H as <- <-; cbn [DB]; try (split; reflexivity).
  all: try match goal with
       | Hf : find (fr_between _ _) _ = Some ?fr |- _ =>
           apply find_some in Hf; destruct Hf as [_ Hf];
           rewrite requestsBetween_withAccepted_other by assumption;
           rewrite (followsBetween_withAccepted_other _ _ _ _ _ fr)
             by exact (fr_between_other _ _ _ _ fr Hneq Hf)
       end.
  all: rewrite requestsBetween_withRequest_other by apply Hnew.
  all: split; reflexivity.
Qed.

Lemma create_leaves_other_pairs_alone_witness :
  let s' := snd (FollowCreate Sample.uri Sample.alice (Sample.to Sample.bob)
                   Sample.following_carol) in
  requestsBetween (DB s') "01ALICE" "01CAROL"
  = requestsBetween (DB Sample.following_carol) "01ALICE" "01CAROL" /\
  followsBetween (DB s') "01ALICE" "01CAROL"
  = followsBetween (DB Sample.following_carol) "01ALICE" "01CAROL".
Proof.
  apply (create_leaves_other_pairs_alone Sample.uri Sample.alice
           (Sample.to Sample.bob) Sample.following_carol "01ALICE" "01CAROL").
  discriminate.
Defined.

(** X5.  [FollowCreate] never touches the accounts or the blocks, never
    deletes a Follow, and takes at most one identifier from the
    generator. *)
Theorem create_frame uri A form s :
  let s' := snd (FollowCreate uri A form s) in
  accounts (DB s') = accounts (DB s) /\
  blocks (DB s') = blocks (DB s) /\
  incl (follows (DB s)) (follows (DB s')) /\
  (ULIDs s' = ULIDs s \/ exists id, ULIDs s = id :: ULIDs s').
Proof.
  destruct (FollowCreate uri A form s) as [out s'] eqn:H. cbn [snd].
  explore H; settle_stores.
  all: injection H as <- <-; cbn [DB ULIDs].
  all: split; [reflexivity|]; split; [reflexivity|]; split.
  all: first [ apply incl_refl
             | apply incl_appl, incl_refl
             | left; reflexivity
             | left; assumption
             | right; eexists; reflexivity ].
Qed.

(** ** When a create is refused *)

Lemma isErrNoEntries_true err : isErrNoEntries err = true -> err = ErrNoEntries.
Proof. destruct err; simpl; congruence. Qed.

(** X6.  [FollowCreate] fails with NotFound in exactly two situations: the
    block query answers true, or it answers false and the target lookup
    answers [ErrNoEntries].  No other path of the function produces a
    NotFound. *)
Theorem create_not_found_iff uri A form s :
  (exists e s', FollowCreate uri A form s = (Fail (NewErrorNotFound e), s')) <->
  DB.IsBlocked (DB s) (acct_ID A) (form_ID form) true = Val true \/
  (DB.IsBlocked (DB s) (acct_ID A) (form_ID form) true = Val false /\
   DB.GetAccountByID (DB s) (form_ID form) = Err ErrNoEntries).
Proof.
  split.
  - intros (e & s' & H). explore H.
    + now left.
    + right. split; [reflexivity|].
      f_equal. now apply isErrNoEntries_true.
  - intros [Hb | [Hb Ha]]; do 2 eexists; unfold FollowCreate.
    + rewrite run_query, Hb. reflexivity.
    + rewrite run_query, Hb, run_query, Ha. reflexivity.
Qed.

(** X7.  [FollowCreate] fails with NotAcceptable exactly when the block
    query answers false, the target is found, neither a follow nor a
    request from the requester to it is reported, and the target found
    carries the requester's own id. *)
Theorem create_not_acceptable_iff uri A form s :
  (exists e s', FollowCreate uri A form s = (Fail (NewErrorNotAcceptable e), s')) <->
  exists B,
    DB.IsBlocked (DB s) (acct_ID A) (form_ID form) true = Val false /\
    DB.GetAccountByID (DB s) (form_ID form) = Val B /\
    DB.IsFollowing (DB s) A B = Val false /\
    DB.IsFollowRequested (DB s) A B = Val false /\
    acct_ID A = acct_ID B.
Proof.
  split.
  - intros (e & s' & H). explore H.
    eexists. repeat split; try eassumption. now apply String.eqb_eq.
  - intros (B & Hb & Ha & Hf & Hfr & Hid). do 2 eexists. unfold FollowCreate.
    rewrite run_query, Hb, run_query, Ha, run_query, Hf, run_query, Hfr.
    apply String.eqb_eq in Hid. rewrite Hid. reflexivity.
Qed.

(** X8.  A [FollowCreate] that fails with NotFound or NotAcceptable has
    changed nothing: repository, queue and identifier supply are as they
    were.  Only an Internal error can come with a partly changed state. *)
Theorem create_refusal_changes_nothing uri A form s e s' :
  FollowCreate uri A form s = (Fail e, s') ->
  (forall err, e <> NewErrorInternalError err) ->
  s' = s.
Proof.
  intros H Hclass. explore H.
  all: injection H as <- <-; try reflexivity.
  all: now contradiction (Hclass _ eq_refl).
Qed.

Lemma create_refusal_changes_nothing_witness :
  FollowCreate Sample.uri Sample.alice (Sample.to Sample.alice) Sample.self_blocked
  = (Fail (NewErrorNotFound (Errorf "block exists between accounts")),
     Sample.self_blocked) /\
  Sample.self_blocked = Sample.self_blocked.
Proof.
  split; [reflexivity|].
  apply (create_refusal_changes_nothing Sample.uri Sample.alice
           (Sample.to Sample.alice) Sample.self_blocked
           (NewErrorNotFound (Errorf "block exists between accounts"))
           Sample.self_blocked).
  - reflexivity.
  - discriminate.
Defined.

(** X9.  [FollowCreate] panics only on the dereference of line 103: if a
    call panics, the target it found has a nil [Locked] field, the new
    FollowRequest is stored, and the queue is as it was. *)
Theorem create_panics_only_on_nil_locked uri A form s s' :
  FollowCreate uri A form s = (Panic, s') ->
  exists B id,
    DB.GetAccountByID (DB s) (form_ID form) = Val B /\
    acct_Locked B = None /\
    In (newFollowRequest uri A form id) (follow_requests (DB s')) /\
    Workers s' = Workers s.
Proof.
  intros H. explore H; settle_stores.
  injection H as <-. do 2 eexists. repeat split; try eassumption.
  simpl. apply in_or_app. right. now left.
Qed.

Lemma create_panics_only_on_nil_locked_witness :
  exists B id,
    DB.GetAccountByID (DB Sample.fresh) "01NIL" = Val B /\
    acct_Locked B = None /\
    In (newFollowRequest Sample.uri Sample.alice (Sample.to Sample.nil_locked) id)
       (follow_requests
          (withRequest (DB Sample.fresh)
             (Sample.request "01FOLLOW1" Sample.alice Sample.nil_locked))) /\
    Workers Sample.fresh = Workers Sample.fresh.
Proof.
  apply (create_panics_only_on_nil_locked Sample.uri Sample.alice
           (Sample.to Sample.nil_locked) Sample.fresh
           {| DB := withRequest (DB Sample.fresh)
                      (Sample.request "01FOLLOW1" Sample.alice Sample.nil_locked);
              Workers := Workers Sample.fresh;
              ULIDs := ["01FOLLOW2"] |}).
  reflexivity.
Defined.

(** X10.  When the identifier generator has nothing to give,
    [FollowCreate] changes nothing, on any path: the generator is asked
    (line 75) before the first write (line 98). *)
Theorem create_without_identifier_changes_nothing uri A form s :
  ULIDs s = [] ->
  snd (FollowCreate uri A form s) = s.
Proof.
  intros Hdry.
  destruct (FollowCreate uri A form s) as [out s'] eqn:H. cbn [snd].
  explore H; try congruence.
  all: now injection H as <- <-.
Qed.

Lemma create_without_identifier_changes_nothing_witness :
  snd (FollowCreate Sample.uri Sample.alice (Sample.to Sample.carol) Sample.dry)
  = Sample.dry.
Proof.
  apply (create_without_identifier_changes_nothing Sample.uri Sample.alice
           (Sample.to Sample.carol) Sample.dry).
  reflexivity.
Defined.

(** ** What a remove can and cannot change *)

(** X11.  [FollowRemove] never writes a row, never touches the accounts or
    the blocks and never asks for an identifier; what it adds to the queue
    is at most two messages, each an Undo of a Follow from the requester to
    the target id it was called with. *)
Theorem remove_frame A targetAccountID s :
  let s' := snd (FollowRemove A targetAccountID s) in
  accounts (DB s') = accounts (DB s) /\
  blocks (DB s') = blocks (DB s) /\
  ULIDs s' = ULIDs s /\
  incl (follow_requests (DB s')) (follow_requests (DB s)) /\
  incl (follows (DB s')) (follows (DB s)) /\
  exists new,
    Workers s' = (Workers s ++ new)%list /\
    length new <= 2 /\
    forall m, In m new ->
      APActivityType m = ActivityUndo /\
      APObjectType m = ActivityFollow /\
      OriginAccount m = Some A /\
      exists uri, GTSModel m = ModelFollow (undoFollow A targetAccountID uri).
Proof.
  destruct (FollowRemove A targetAccountID s) as [out s'] eqn:H. cbn [snd].
  explore H; settle_stores.
  all: injection H as <- <-; cbn [DB Workers ULIDs]; simpl.
  all: do 3 (split; [reflexivity|]).
  all: split; [first [apply incl_refl | apply incl_filter]|].
  all: split; [first [apply incl_refl | apply incl_filter]|].
  all: first [ exists []; split; [now rewrite app_nil_r|]
             | rewrite <- ?app_assoc; eexists; split; [reflexivity|] ].
  all: split; [simpl; lia|].
  all: simpl; intros m Hm;
    repeat (destruct Hm as [<- | Hm]; [repeat split; eexists; reflexivity|]);
    destruct Hm.
Qed.

(** X12.  [FollowRemove] fails with NotFound in exactly the two situations
    in which [FollowCreate] does: the block query answers true, or it
    answers false and the target lookup answers [ErrNoEntries]. *)
Theorem remove_not_found_iff A targetAccountID s :
  (exists e s', FollowRemove A targetAccountID s = (Fail (NewErrorNotFound e), s')) <->
  DB.IsBlocked (DB s) (acct_ID A) targetAccountID true = Val true \/
  (DB.IsBlocked (DB s) (acct_ID A) targetAccountID true = Val false /\
   DB.GetAccountByID (DB s) targetAccountID = Err ErrNoEntries).
Proof.
  split.
  - intros (e & s' & H). explore H.
    + now left.
    + right. split; [reflexivity|].
      f_equal. now apply isErrNoEntries_true.
  - intros [Hb | [Hb Ha]]; do 2 eexists; unfold FollowRemove.
    + rewrite run_query, Hb. reflexivity.
    + rewrite run_query, Hb, run_query, Ha. reflexivity.
Qed.

(** X13.  The only error of [FollowRemove] that is not Internal is
    NotFound, and a remove that fails with it has changed nothing. *)
Theorem remove_refusal_changes_nothing A targetAccountID s e s' :
  FollowRemove A targetAccountID s = (Fail e, s') ->
  (forall err, e <> NewErrorInternalError err) ->
  s' = s /\ exists err, e = NewErrorNotFound err.
Proof.
  intros H Hclass. explore H.
  all: injection H as <- <-; try (split; [reflexivity | eexists; reflexivity]).
  all: now contradiction (Hclass _ eq_refl).
Qed.

Lemma remove_refusal_changes_nothing_witness :
  Sample.dangling = Sample.dangling /\
  exists err,
    NewErrorNotFound
      (ErrorfWrap "AccountFollowRemove: account %s not found in the db: %s"
         ErrNoEntries)
    = NewErrorNotFound err.
Proof.
  apply (remove_refusal_changes_nothing Sample.alice "01GONE" Sample.dangling).
  - reflexivity.
  - discriminate.
Defined.

(** ** Deletions that fail *)

Lemma run_target_lookup {B : Type} (r : Result Account)
    (k : option Account -> M B) s :
  r <> Err ErrNoEntries ->
  bind
    match r with
    | Err err =>
        if isErrNoEntries err
        then throw (NewErrorNotFound
               (ErrorfWrap "AccountFollowRemove: account %s not found in the db: %s" err))
        else ret None
    | Val a => ret (Some a)
    end k s
  = k match r with Val a => Some a | Err _ => None end s.
Proof.
  intros Hr. destruct r as [a|[]]; try reflexivity. now contradiction Hr.
Qed.

Lemma DeleteFollowByID_fault db id err :
  fault db (OpDeleteByID Follows) = Some err ->
  DB.DeleteFollowByID db id = (Some err, db).
Proof. intros H. unfold DB.DeleteFollowByID. now rewrite H. Qed.

(** X14.  A [FollowRemove] that fails has enqueued nothing, unless the
    failure is that of the final snapshot (line 204): every other error
    return of the function (lines 129, 132, 139, 153, 168) comes before
    the first enqueue (line 175). *)
Theorem remove_failure_enqueues_nothing A targetAccountID s e s' :
  FollowRemove A targetAccountID s = (Fail e, s') ->
  Workers s' = Workers s \/
  exists err, DB.GetRelationship (DB s') (acct_ID A) targetAccountID = Err err.
Proof.
  intros H. explore H.
  all: injection H as <- <-; cbn [DB Workers].
  all: first [ left; reflexivity | right; eexists; eassumption ].
Qed.

Lemma remove_failure_enqueues_nothing_witness :
  Workers Sample.request_delete_down = Workers Sample.request_delete_down \/
  exists err,
    DB.GetRelationship (DB Sample.request_delete_down) "01ALICE" "01CAROL"
    = Err err.
Proof.
  apply (remove_failure_enqueues_nothing Sample.alice "01CAROL"
           Sample.request_delete_down
           (NewErrorInternalError
              (ErrorfWrap "AccountFollowRemove: error removing follow request from db: %s"
                 ErrConnection))
           Sample.request_delete_down).
  reflexivity.
Defined.

(** X15.  The Undo messages are enqueued only after both deletions (lines
    174 and 189 follow line 171).  So when the request of the pair was
    deleted and the deletion of the follow then fails, [FollowRemove]
    fails with an Internal error, the request is gone, the follow is still
    stored, and no Undo message was enqueued for the deleted request. *)
Theorem remove_loses_undo_at_failed_follow_deletion A targetAccountID s fr f err :
  DB.IsBlocked (DB s) (acct_ID A) targetAccountID true = Val false ->
  DB.GetAccountByID (DB s) targetAccountID <> Err ErrNoEntries ->
  DB.GetWhereFollowRequest (DB s) (acct_ID A) targetAccountID = Val fr ->
  fault (DB s) (OpDeleteByID FollowRequests) = None ->
  DB.GetWhereFollow (DB s) (acct_ID A) targetAccountID = Val f ->
  fault (DB s) (OpDeleteByID Follows) = Some err ->
  FollowRemove A targetAccountID s
  = (Fail (NewErrorInternalError
             (ErrorfWrap "AccountFollowRemove: error removing follow from db: %s"
                err)),
     {| DB := withoutRequest (DB s) (fr_ID fr);
        Workers := Workers s;
        ULIDs := ULIDs s |})
  /\ ~ In fr (follow_requests (withoutRequest (DB s) (fr_ID fr)))
  /\ follows (withoutRequest (DB s) (fr_ID fr)) = follows (DB s).
Proof.
  intros Hblk Hacct Hfr Hdfr Hf Hdf. split; [|split].
  - unfold FollowRemove.
    rewrite run_query, Hblk, run_query, run_target_lookup by assumption.
    rewrite run_query, Hfr, run_assoc, run_exec.
    rewrite DeleteFollowRequestByID_ok by assumption.
    cbn [fst snd]. fold (withoutRequest (DB s) (fr_ID fr)).
    rewrite run_ret, run_query. cbn [DB Workers ULIDs].
    change (DB.GetWhereFollow _ (acct_ID A) targetAccountID)
      with (DB.GetWhereFollow (DB s) (acct_ID A) targetAccountID).
    rewrite Hf, run_assoc, run_exec. cbn [DB Workers ULIDs].
    rewrite (DeleteFollowByID_fault _ _ err) by exact Hdf.
    reflexivity.
  - apply not_in_without_request.
  - reflexivity.
Qed.

Lemma remove_loses_undo_at_failed_follow_deletion_witness :
  FollowRemove Sample.alice "01CAROL" Sample.follow_delete_down
  = (Fail (NewErrorInternalError
             (ErrorfWrap "AccountFollowRemove: error removing follow from db: %s"
                ErrConnection)),
     {| DB := withoutRequest (DB Sample.follow_delete_down) "01REQ";
        Workers := Workers Sample.follow_delete_down;
        ULIDs := ULIDs Sample.follow_delete_down |})
  /\ ~ In (Sample.request "01REQ" Sample.alice Sample.carol)
          (follow_requests (withoutRequest (DB Sample.follow_delete_down) "01REQ"))
  /\ follows (withoutRequest (DB Sample.follow_delete_down) "01REQ")
     = follows (DB Sample.follow_delete_down).
Proof.
  apply (remove_loses_undo_at_failed_follow_deletion Sample.alice "01CAROL"
           Sample.follow_delete_down
           (Sample.request "01REQ" Sample.alice Sample.carol)
           (follow_of (Sample.request "01FOL" Sample.alice Sample.carol))
           ErrConnection);
    try reflexivity. discriminate.
Defined.

(** ** Removing on a repository that answers *)

Lemma GetWhereFollowRequest_answer db a b :
  fault db (OpGetWhere FollowRequests) = None ->
  DB.GetWhereFollowRequest db a b =
  match find (fr_between a b) (follow_requests db) with
  | Some fr => Val fr
  | None => Err ErrNoEntries
  end.
Proof. intros H. unfold DB.GetWhereFollowRequest. now rewrite H. Qed.

Lemma GetWhereFollow_answer db a b :
  fault db (OpGetWhere Follows) = None ->
  DB.GetWhereFollow db a b =
  match find (f_between a b) (follows db) with
  | Some f => Val f
  | None => Err ErrNoEntries
  end.
Proof. intros H. unfold DB.GetWhereFollow. now rewrite H. Qed.

(** The whole run of a remove when no call fails. *)
Lemma remove_operational A targetAccountID s B :
  operational (DB s) ->
  blockBetween (DB s) (acct_ID A) targetAccountID = false ->
  lookupAccount (DB s) targetAccountID = Some B ->
  let db' := afterRemove (DB s) (acct_ID A) targetAccountID in
  FollowRemove A targetAccountID s
  = (Ok (snapshot db' (acct_ID A) targetAccountID),
     {| DB := db';
        Workers := (Workers s
                    ++ undoMessages A targetAccountID (Some B) (DB s))%list;
        ULIDs := ULIDs s |}).
Proof.
  intros Hop Hblk Hacct db'. subst db'. unfold FollowRemove, afterRemove, undoMessages.
  pass_guards Hop Hblk Hacct. rewrite run_ret, run_query.
  rewrite GetWhereFollowRequest_answer by auto with repo.
  destruct (find (fr_between _ _) (follow_requests (DB s))) as [fr|].
  - rewrite run_assoc, run_exec, DeleteFollowRequestByID_ok by auto with repo.
    cbn [fst snd]. fold (withoutRequest (DB s) (fr_ID fr)).
    rewrite run_ret, run_query. cbn [DB Workers ULIDs].
    rewrite GetWhereFollow_answer by (apply operational_fault; exact Hop).
    cbn [withoutRequest follows].
    destruct (find (f_between _ _) (follows (DB s))) as [f|].
    + rewrite run_assoc, run_exec. cbn [DB Workers ULIDs].
      rewrite DeleteFollowByID_ok by (apply operational_fault; exact Hop).
      cbn [fst snd]. rewrite run_ret. unfold when.
      rewrite !run_enqueue, RelationshipGet_answer
        by (apply operational_fault; exact Hop).
      cbn [DB Workers ULIDs option_list map]. now rewrite <- app_assoc.
    + rewrite run_ret. unfold when.
      rewrite run_enqueue, run_ret, RelationshipGet_answer
        by (apply operational_fault; exact Hop).
      reflexivity.
  - rewrite run_ret, run_query, GetWhereFollow_answer by auto with repo.
    destruct (find (f_between _ _) (follows (DB s))) as [f|].
    + rewrite run_assoc, run_exec, DeleteFollowByID_ok by auto with repo.
      cbn [fst snd]. rewrite run_ret. unfold when.
      rewrite run_ret, run_enqueue, RelationshipGet_answer
        by (apply operational_fault; exact Hop).
      reflexivity.
    + rewrite run_ret. unfold when.
      rewrite !run_ret, RelationshipGet_answer by auto with repo.
      cbn [option_list map app]. rewrite app_nil_r. now destruct s.
Qed.

Lemma filter_nil_filter {A : Type} (p q : A -> bool) l :
  filter p l = [] -> filter p (filter q l) = [].
Proof.
  induction l as [|x l IH]; simpl; [reflexivity|].
  destruct (p x) eqn:Ep; [discriminate|]. intros H.
  destruct (q x); simpl; [rewrite Ep|]; now apply IH.
Qed.

Lemma find_none_filter_nil {A : Type} (p : A -> bool) l :
  find p l = None -> filter p l = [].
Proof.
  induction l as [|x l IH]; simpl; [reflexivity|].
  destruct (p x); [discriminate | exact IH].
Qed.

(** When at most one row satisfies [p], taking out the rows that share the
    key of the first such row leaves none. *)
Lemma filter_without_first {A : Type} (p : A -> bool) (key : A -> string) l x :
  length (filter p l) <= 1 ->
  find p l = Some x ->
  filter p (filter (fun r => negb (key r =? key x)) l) = [].
Proof.
  induction l as [|y l IH]; simpl; [discriminate|].
  destruct (p y) eqn:Ep; simpl.
  - intros Hlen [= ->]. rewrite String.eqb_refl. simpl.
    apply filter_nil_filter.
    destruct (filter p l); [reflexivity | simpl in Hlen; lia].
  - intros Hlen Hfind.
    destruct (negb (key y =? key x)); simpl; [rewrite Ep|]; now apply IH.
Qed.

Lemma afterRemove_clears db a b :
  length (requestsBetween db a b) <= 1 ->
  length (followsBetween db a b) <= 1 ->
  requestsBetween (afterRemove db a b) a b = [] /\
  followsBetween (afterRemove db a b) a b = [].
Proof.
  unfold requestsBetween, followsBetween, afterRemove. intros Hfr Hf.
  destruct (find (fr_between a b) (follow_requests db)) as [fr|] eqn:Efr;
    destruct (find (f_between a b) (follows db)) as [f|] eqn:Ef; simpl; split;
    first [ now apply (filter_without_first _ fr_ID)
          | now apply (filter_without_first _ f_ID)
          | now apply find_none_filter_nil ].
Qed.

Lemma filter_nil_find_none {A : Type} (p : A -> bool) l :
  filter p l = [] -> find p l = None.
Proof.
  induction l as [|x l IH]; simpl; [reflexivity|].
  destruct (p x); [discriminate | exact IH].
Qed.

Lemma afterRemove_frame db a b :
  faults (afterRemove db a b) = faults db /\
  blocks (afterRemove db a b) = blocks db /\
  accounts (afterRemove db a b) = accounts db.
Proof.
  unfold afterRemove.
  destruct (find (fr_between _ _) _), (find (f_between _ _) _); now repeat split.
Qed.

Lemma afterRemove_nothing db a b :
  requestsBetween db a b = [] ->
  followsBetween db a b = [] ->
  afterRemove db a b = db.
Proof.
  unfold requestsBetween, followsBetween, afterRemove. intros Hfr Hf.
  now rewrite (filter_nil_find_none _ _ Hfr), (filter_nil_find_none _ _ Hf).
Qed.

Lemma undoMessages_nothing A b target db :
  requestsBetween db (acct_ID A) b = [] ->
  followsBetween db (acct_ID A) b = [] ->
  undoMessages A b target db = [].
Proof.
  unfold requestsBetween, followsBetween, undoMessages. intros Hfr Hf.
  now rewrite (filter_nil_find_none _ _ Hfr), (filter_nil_find_none _ _ Hf).
Qed.

(** X16.  On a repository that answers, with no block, a stored target and
    at most one FollowRequest and one Follow for the pair, [FollowRemove]
    succeeds, leaves no FollowRequest and no Follow for the pair, and
    returns a snapshot with following = false and requested = false.
    Calling it again changes nothing - no row, no message - and returns the
    same snapshot. *)
Theorem remove_clears_pair A targetAccountID s B :
  operational (DB s) ->
  blockBetween (DB s) (acct_ID A) targetAccountID = false ->
  lookupAccount (DB s) targetAccountID = Some B ->
  length (requestsBetween (DB s) (acct_ID A) targetAccountID) <= 1 ->
  length (followsBetween (DB s) (acct_ID A) targetAccountID) <= 1 ->
  exists rel s',
    FollowRemove A targetAccountID s = (Ok rel, s') /\
    requestsBetween (DB s') (acct_ID A) targetAccountID = [] /\
    followsBetween (DB s') (acct_ID A) targetAccountID = [] /\
    rel_Following rel = false /\
    rel_Requested rel = false /\
    FollowRemove A targetAccountID s' = (Ok rel, s').
Proof.
  intros Hop Hblk Hacct Hfr Hf.
  destruct (afterRemove_clears _ _ _ Hfr Hf) as [Hfr' Hf'].
  destruct (afterRemove_frame (DB s) (acct_ID A) targetAccountID)
    as (Hfaults & Hblocks & Haccounts).
  do 2 eexists. split; [now apply (remove_operational A targetAccountID s B)|].
  cbn [DB]. repeat split; try assumption.
  - simpl. now apply existsb_filter_nil.
  - simpl. now apply existsb_filter_nil.
  - match goal with
    | |- FollowRemove _ _ ?st = _ =>
        rewrite (remove_operational A targetAccountID st B)
    end; cbn [DB Workers ULIDs].
    + rewrite (afterRemove_nothing
                 (afterRemove (DB s) (acct_ID A) targetAccountID))
        by assumption.
      rewrite (undoMessages_nothing A targetAccountID (Some B)
                 (afterRemove (DB s) (acct_ID A) targetAccountID))
        by assumption.
      now rewrite app_nil_r.
    + unfold operational. now rewrite Hfaults.
    + unfold blockBetween. now rewrite Hblocks.
    + unfold lookupAccount. now rewrite Haccounts.
Qed.

Lemma remove_clears_pair_witness :
  exists rel s',
    FollowRemove Sample.alice "01CAROL" Sample.both_carol = (Ok rel, s') /\
    requestsBetween (DB s') "01ALICE" "01CAROL" = [] /\
    followsBetween (DB s') "01ALICE" "01CAROL" = [] /\
    rel_Following rel = false /\
    rel_Requested rel = false /\
    FollowRemove Sample.alice "01CAROL" s' = (Ok rel, s').
Proof.
  apply (remove_clears_pair Sample.alice "01CAROL" Sample.both_carol Sample.carol);
    try reflexivity; simpl; lia.
Defined.

(** ** Create, then remove *)

Lemma undoMessages_pending uri A form B db id :
  requestsBetween db (acct_ID A) (form_ID form) = [] ->
  followsBetween db (acct_ID A) (form_ID form) = [] ->
  undoMessages A (form_ID form) (Some B)
    (withRequest db (newFollowRequest uri A form id))
  = [undoMessage A (form_ID form) (Some B) (uri (acct_Username A) id)].
Proof.
  unfold requestsBetween, followsBetween, undoMessages. intros Hfr Hf.
  cbn [withRequest follow_requests follows].
  rewrite (find_app_last _ _ (newFollowRequest uri A form id)
             (filter_nil_find_none _ _ Hfr) (fr_between_new uri A form id)).
  now rewrite (filter_nil_find_none _ _ Hf).
Qed.

Lemma undoMessages_accepted uri A form B db id :
  followsBetween db (acct_ID A) (form_ID form) = [] ->
  undoMessages A (form_ID form) (Some B)
    (withAccepted (withRequest db (newFollowRequest uri A form id))
       (acct_ID A) (form_ID form) (newFollowRequest uri A form id))
  = [undoMessage A (form_ID form) (Some B) (uri (acct_Username A) id)].
Proof.
  unfold followsBetween, undoMessages. intros Hf.
  cbn [withAccepted withRequest follow_requests follows].
  rewrite (filter_nil_find_none _ _ (filter_negb_nil _ _)).
  rewrite (find_app_last _ _ (follow_of (newFollowRequest uri A form id))
             (filter_nil_find_none _ _ Hf)).
  - reflexivity.
  - rewrite f_between_follow_of. apply fr_between_new.
Qed.

(** X17.  Create, then remove.  Starting with nothing between two distinct,
    unblocked accounts, on a repository that answers, [FollowCreate(A, B)]
    followed by [FollowRemove(A, B)] leaves no FollowRequest and no Follow
    for the pair and ends with a snapshot that is neither following nor
    requested.  Over the two calls the queue receives the Create message,
    unless the follow was accepted on the spot, and then one Undo message,
    which carries the URI that the create generated. *)
Theorem create_then_remove uri A form s B locked id rest :
  operational (DB s) ->
  blockBetween (DB s) (acct_ID A) (form_ID form) = false ->
  lookupAccount (DB s) (form_ID form) = Some B ->
  acct_Locked B = Some locked ->
  followsBetween (DB s) (acct_ID A) (form_ID form) = [] ->
  requestsBetween (DB s) (acct_ID A) (form_ID form) = [] ->
  acct_ID A <> form_ID form ->
  ULIDs s = id :: rest ->
  let s1 := snd (FollowCreate uri A form s) in
  let announced :=
    if negb locked && (acct_Domain B =? "") then []
    else [createMessage A B (newFollowRequest uri A form id)] in
  exists rel s2,
    FollowRemove A (form_ID form) s1 = (Ok rel, s2) /\
    requestsBetween (DB s2) (acct_ID A) (form_ID form) = [] /\
    followsBetween (DB s2) (acct_ID A) (form_ID form) = [] /\
    rel_Following rel = false /\
    rel_Requested rel = false /\
    Workers s2
    = (Workers s ++ announced
         ++ [undoMessage A (form_ID form) (Some B) (uri (acct_Username A) id)])%list.
Proof.
  intros Hop Hblk Hacct Hlock Hf Hfr Hneq Hid s1 announced.
  pose proof (create_fresh uri A form s B id rest Hop Hblk Hacct Hf Hfr Hneq Hid)
    as Hrun.
  cbv zeta in Hrun. rewrite Hlock in Hrun.
  pose proof (fr_between_new uri A form id) as Hnew.
  subst s1 announced. rewrite Hrun. clear Hrun.
  destruct (negb locked && (acct_Domain B =? "")); cbn [snd].
  - (* accepted on the spot: one follow, no request *)
    match goal with
    | |- context [FollowRemove _ _ ?st] =>
        pose proof (remove_operational A (form_ID form) st B Hop Hblk Hacct) as Hrm
    end.
    cbv zeta in Hrm. cbn [DB Workers ULIDs] in Hrm.
    rewrite undoMessages_accepted in Hrm by assumption.
    do 2 eexists. split; [exact Hrm|]. cbn [DB Workers].
    match goal with
    | |- context [afterRemove ?db _ _] =>
        destruct (afterRemove_clears db (acct_ID A) (form_ID form)) as [H1 H2]
    end.
    + rewrite requestsBetween_withAccepted. simpl. lia.
    + rewrite followsBetween_withAccepted by assumption.
      unfold followsBetween in *. cbn [withRequest follows]. rewrite Hf.
      simpl. lia.
    + repeat split; try assumption.
      * simpl. now apply existsb_filter_nil.
      * simpl. now apply existsb_filter_nil.
  - (* left pending: one request, no follow *)
    match goal with
    | |- context [FollowRemove _ _ ?st] =>
        pose proof (remove_operational A (form_ID form) st B Hop Hblk Hacct) as Hrm
    end.
    cbv zeta in Hrm. cbn [DB Workers ULIDs] in Hrm.
    rewrite undoMessages_pending in Hrm by assumption.
    do 2 eexists. split; [exact Hrm|]. cbn [DB Workers].
    match goal with
    | |- context [afterRemove ?db _ _] =>
        destruct (afterRemove_clears db (acct_ID A) (form_ID form)) as [H1 H2]
    end.
    + rewrite requestsBetween_withRequest by assumption. rewrite Hfr.
      simpl. lia.
    + unfold followsBetween in *. cbn [withRequest follows]. rewrite Hf.
      simpl. lia.
    + repeat split; try assumption.
      * simpl. now apply existsb_filter_nil.
      * simpl. now apply existsb_filter_nil.
      * now rewrite <- app_assoc.
Qed.

Lemma create_then_remove_witness :
  let s1 := snd (FollowCreate Sample.uri Sample.alice (Sample.to Sample.lou)
                   Sample.fresh) in
  exists rel s2,
    FollowRemove Sample.alice "01LOU" s1 = (Ok rel, s2) /\
    requestsBetween (DB s2) "01ALICE" "01LOU" = [] /\
    followsBetween (DB s2) "01ALICE" "01LOU" = [] /\
    rel_Following rel = false /\
    rel_Requested rel = false /\
    Workers s2
    = [createMessage Sample.alice Sample.lou
         (Sample.request "01FOLLOW1" Sample.alice Sample.lou);
       undoMessage Sample.alice "01LOU" (Some Sample.lou)
         (Sample.uri "alice" "01FOLLOW1")].
Proof.
  apply (create_then_remove Sample.uri Sample.alice (Sample.to Sample.lou)
           Sample.fresh Sample.lou true "01FOLLOW1" ["01FOLLOW2"]);
    try reflexivity. discriminate.
Defined.

(** ** More on the create path *)

Lemma AcceptFollowRequest_fault db a b err :
  fault db OpAcceptFollowRequest = Some err ->
  DB.AcceptFollowRequest db a b = (Err err, db).
Proof. intros H. unfold DB.AcceptFollowRequest. now rewrite H. Qed.

(** X18.  The request is written (line 98) before it is promoted (line
    104), and nothing undoes the write: when the promotion fails for a
    local, unlocked target, [FollowCreate] returns an Internal error
    wrapping the failure, the new FollowRequest stays stored as a pending
    request, and no message is enqueued. *)
Theorem create_keeps_request_when_promotion_fails uri A form s B id rest db1 err :
  DB.IsBlocked (DB s) (acct_ID A) (form_ID form) true = Val false ->
  DB.GetAccountByID (DB s) (form_ID form) = Val B ->
  DB.IsFollowing (DB s) A B = Val false ->
  DB.IsFollowRequested (DB s) A B = Val false ->
  acct_ID A <> acct_ID B ->
  ULIDs s = id :: rest ->
  DB.Put (DB s) (newFollowRequest uri A form id) = (None, db1) ->
  acct_Locked B = Some false ->
  acct_Domain B = "" ->
  fault db1 OpAcceptFollowRequest = Some err ->
  FollowCreate uri A form s
  = (Fail (NewErrorInternalError
             (ErrorfWrap "accountfollowcreate: error accepting follow request for local unlocked account: %s"
                err)),
     {| DB := db1; Workers := Workers s; ULIDs := rest |})
  /\ In (newFollowRequest uri A form id) (follow_requests db1).
Proof.
  intros Hblk Hacct Hf Hfr Hneq Hid Hput Hlock Hdom Hacc. split.
  - unfold FollowCreate.
    rewrite run_query, Hblk, run_query, Hacct, run_query, Hf, run_query, Hfr.
    apply String.eqb_neq in Hneq. rewrite Hneq.
    rewrite (run_ulid _ _ _ _ Hid), run_exec. cbn [DB Workers ULIDs].
    rewrite Hput. cbn [fst snd]. rewrite Hlock. unfold deref. rewrite run_ret.
    rewrite Hdom. cbn [negb andb String.eqb]. rewrite run_exec.
    cbn [DB Workers ULIDs].
    rewrite (AcceptFollowRequest_fault _ _ _ err) by assumption. reflexivity.
  - apply Put_inv in Hput. destruct Hput as [[_ ->] | (e & He & _)];
      [|discriminate].
    simpl. apply in_or_app. right. now left.
Qed.

Lemma create_keeps_request_when_promotion_fails_witness :
  FollowCreate Sample.uri Sample.alice (Sample.to Sample.bob) Sample.accept_down
  = (Fail (NewErrorInternalError
             (ErrorfWrap "accountfollowcreate: error accepting follow request for local unlocked account: %s"
                ErrConnection)),
     {| DB := withRequest (DB Sample.accept_down)
                (Sample.request "01FOLLOW1" Sample.alice Sample.bob);
        Workers := Workers Sample.accept_down;
        ULIDs := ["01FOLLOW2"] |})
  /\ In (newFollowRequest Sample.uri Sample.alice (Sample.to Sample.bob) "01FOLLOW1")
        (follow_requests
           (withRequest (DB Sample.accept_down)
              (Sample.request "01FOLLOW1" Sample.alice Sample.bob))).
Proof.
  apply (create_keeps_request_when_promotion_fails Sample.uri Sample.alice
           (Sample.to Sample.bob) Sample.accept_down Sample.bob
           "01FOLLOW1" ["01FOLLOW2"]
           (withRequest (DB Sample.accept_down)
              (Sample.request "01FOLLOW1" Sample.alice Sample.bob))
           ErrConnection);
    try reflexivity. discriminate.
Defined.

Lemma GetAccountByID_ID db id a : DB.GetAccountByID db id = Val a -> acct_ID a = id.
Proof.
  unfold DB.GetAccountByID. destruct (fault db OpGetAccountByID); [discriminate|].
  destruct (find _ _) eqn:E; [|discriminate]. intros [= <-].
  apply find_some in E. destruct E as [_ E]. now apply String.eqb_eq.
Qed.

Lemma GetRelationship_inv db a b rel :
  DB.GetRelationship db a b = Val rel -> rel = snapshot db a b.
Proof.
  unfold DB.GetRelationship. destruct (fault db OpGetRelationship);
    [discriminate | now intros [= <-]].
Qed.

Lemma IsFollowing_true db A B :
  DB.IsFollowing db A B = Val true ->
  existsb (f_between (acct_ID A) (acct_ID B)) (follows db) = true.
Proof.
  unfold DB.IsFollowing. destruct (fault db OpIsFollowing);
    [discriminate | now intros [= ->]].
Qed.

Lemma IsFollowRequested_true db A B :
  DB.IsFollowRequested db A B = Val true ->
  existsb (fr_between (acct_ID A) (acct_ID B)) (follow_requests db) = true.
Proof.
  unfold DB.IsFollowRequested. destruct (fault db OpIsFollowRequested);
    [discriminate | now intros [= ->]].
Qed.

(** X19.  A [FollowCreate] that succeeds never returns an empty
    relationship: the snapshot it returns says following or requested,
    whichever of the four successful returns (lines 58, 66, 108, 121) is
    taken. *)
Theorem create_success_is_following_or_requested uri A form s rel s' :
  FollowCreate uri A form s = (Ok rel, s') ->
  rel_Following rel = true \/ rel_Requested rel = true.
Proof.
  intros H. explore H; settle_stores.
  all: injection H as <- <-.
  all: repeat match goal with
       | Hr : DB.GetRelationship _ _ _ = Val _ |- _ =>
           apply GetRelationship_inv in Hr; subst
       | Ha : DB.GetAccountByID _ _ = Val _ |- _ =>
           apply GetAccountByID_ID in Ha
       end.
  - left. simpl. match goal with Hf : DB.IsFollowing _ _ _ = _ |- _ =>
      apply IsFollowing_true in Hf; congruence end.
  - right. simpl. match goal with Hf : DB.IsFollowRequested _ _ _ = _ |- _ =>
      apply IsFollowRequested_true in Hf; congruence end.
  - left. simpl. rewrite existsb_app. simpl.
    match goal with Hf : find (fr_between _ _) _ = Some ?x |- _ =>
      apply find_some in Hf; destruct Hf as [_ Hf];
      rewrite f_between_follow_of, Hf end.
    now rewrite !orb_true_r.
  - right. simpl. rewrite existsb_app. simpl.
    rewrite fr_between_new. now rewrite !orb_true_r.
Qed.

Lemma create_success_is_following_or_requested_witness :
  rel_Following {| rel_Following := true; rel_Requested := false;
                   rel_Blocking := false; rel_BlockedBy := false |} = true \/
  rel_Requested {| rel_Following := true; rel_Requested := false;
                   rel_Blocking := false; rel_BlockedBy := false |} = true.
Proof.
  apply (create_success_is_following_or_requested Sample.uri Sample.alice
           (Sample.to Sample.carol) Sample.following_carol _
           Sample.following_carol).
  reflexivity.
Defined.

(** X20.  A [FollowCreate] that fails has enqueued nothing, unless the
    failure is that of the final snapshot (line 121): the single enqueue of
    the function (line 112) comes after every other error return. *)
Theorem create_failure_enqueues_nothing uri A form s e s' :
  FollowCreate uri A form s = (Fail e, s') ->
  Workers s' = Workers s \/
  exists err, DB.GetRelationship (DB s') (acct_ID A) (form_ID form) = Err err.
Proof.
  intros H. explore H.
  all: injection H as <- <-; cbn [DB Workers].
  all: first [ left; reflexivity | right; eexists; eassumption ].
Qed.

Lemma create_failure_enqueues_nothing_witness :
  Workers {| DB := DB Sample.lost_race; Workers := []; ULIDs := ["01FOLLOW2"] |}
  = Workers Sample.lost_race \/
  exists err,
    DB.GetRelationship (DB Sample.lost_race) "01ALICE" "01CAROL" = Err err.
Proof.
  apply (create_failure_enqueues_nothing Sample.uri Sample.alice
           (Sample.to Sample.carol) Sample.lost_race
           (NewErrorInternalError
              (ErrorfWrap "accountfollowcreate: error creating follow request in db: %s"
                 ErrAlreadyExists))
           {| DB := DB Sample.lost_race; Workers := []; ULIDs := ["01FOLLOW2"] |}).
  reflexivity.
Defined.
